(** * Certificate ledger (tmsl/app.py): fingerprinting, record store, verification

    A shallow embedding of [src/tmsl/app.py] and the properties of its two
    handlers, [IssueCertificate.post] and [VerifyCertificate.post].

    Conventions of the embedding.
    - A Python [str] is a Rocq [string]; its characters are the code points
      U+0000 to U+00FF (Latin-1), for which [str.strip], [str.lower] and
      [str.encode('utf-8')] are tabulated here in full. The string literals
      below are ASCII, so each character is its own code point.
      Strings with a code point above U+00FF, and JSON values that are not
      strings, lie outside the embedding: the statements below are about
      requests whose identifier and field values are strings of code points
      U+0000 to U+00FF.
    - [bytes] are [list byte].
    - A 32-bit word is a [Z] in [0, 2^32) with the wrap-around written out.
    - A [dict] with string keys is a [gmap string _].
    - The SQLAlchemy session is a small state-and-exception monad over the
      table of [CertificateHash] rows; every database call leaves an event
      in a trace.
    - [uuid.uuid4()] and [datetime.utcnow()] read the environment: the
      handler receives the sixteen random bytes (as a number) and the clock
      reading as arguments. *)

From stdpp Require Import gmap strings list.
From Stdlib Require Import ZArith.
From Stdlib.Strings Require Import Ascii Byte.

Local Open Scope Z_scope.

(** ** hashlib.sha256 (FIPS 180-4) *)

Module Sha256.

Definition mask32 : Z := 0xffffffff.

Definition add32 (x y : Z) : Z := Z.land (x + y) mask32.
Definition not32 (x : Z) : Z := Z.lxor x mask32.
Definition shr (n x : Z) : Z := Z.shiftr x n.
Definition rotr (n x : Z) : Z :=
  Z.lor (Z.shiftr x n) (Z.land (Z.shiftl x (32 - n)) mask32).

Definition Ch (x y z : Z) : Z := Z.lxor (Z.land x y) (Z.land (not32 x) z).
Definition Maj (x y z : Z) : Z :=
  Z.lxor (Z.lxor (Z.land x y) (Z.land x z)) (Z.land y z).
Definition bsig0 (x : Z) : Z := Z.lxor (Z.lxor (rotr 2 x) (rotr 13 x)) (rotr 22 x).
Definition bsig1 (x : Z) : Z := Z.lxor (Z.lxor (rotr 6 x) (rotr 11 x)) (rotr 25 x).
Definition ssig0 (x : Z) : Z := Z.lxor (Z.lxor (rotr 7 x) (rotr 18 x)) (shr 3 x).
Definition ssig1 (x : Z) : Z := Z.lxor (Z.lxor (rotr 17 x) (rotr 19 x)) (shr 10 x).

(** The round constants: the first 32 bits of the fractional parts of the
    cube roots of the first 64 primes. *)
Definition primes : list Z :=
  [ 2; 3; 5; 7; 11; 13; 17; 19; 23; 29; 31; 37; 41; 43; 47; 53;
    59; 61; 67; 71; 73; 79; 83; 89; 97; 101; 103; 107; 109; 113; 127; 131;
    137; 139; 149; 151; 157; 163; 167; 173; 179; 181; 191; 193; 197; 199; 211; 223;
    227; 229; 233; 239; 241; 251; 257; 263; 269; 271; 277; 281; 283; 293; 307; 311 ].

(** The integer cube root below [2^bits], found bit by bit from the top. *)
Fixpoint cube_root (bits : nat) (r n : Z) : Z :=
  match bits with
  | O => r
  | S b =>
      let c := Z.lor r (Z.shiftl 1 (Z.of_nat b)) in
      cube_root b (if c * c * c <=? n then c else r) n
  end.

Definition K : list Z :=
  List.map (fun p => Z.land (cube_root 35 0 (Z.shiftl p 96)) mask32) primes.

(** The eight working variables a .. h, and the chaining value. *)
Record regs := Regs { ra : Z; rb : Z; rc : Z; rd : Z; re : Z; rf : Z; rg : Z; rh : Z }.

(** The initial hash value: the first 32 bits of the fractional parts of
    the square roots of the first 8 primes. *)
Definition frac_sqrt (p : Z) : Z := Z.land (Z.sqrt (Z.shiftl p 64)) mask32.

Definition H_init : regs :=
  Regs (frac_sqrt 2) (frac_sqrt 3) (frac_sqrt 5) (frac_sqrt 7)
       (frac_sqrt 11) (frac_sqrt 13) (frac_sqrt 17) (frac_sqrt 19).

(** Padding: 0x80, zero bytes up to 56 mod 64, the bit length on 8 bytes. *)
Definition be_bytes (width : nat) (n : Z) : list Z :=
  List.map (fun i => Z.land (Z.shiftr n (8 * Z.of_nat i)) 0xff) (List.rev (seq 0 width)).

Definition pad (msg : list Z) : list Z :=
  let len := Z.of_nat (List.length msg) in
  let zeros := Z.to_nat ((55 - len) mod 64) in
  msg ++ [0x80] ++ List.repeat 0 zeros ++ be_bytes 8 (8 * len).

Definition word_of_bytes (b0 b1 b2 b3 : Z) : Z :=
  Z.lor (Z.lor (Z.shiftl b0 24) (Z.shiftl b1 16)) (Z.lor (Z.shiftl b2 8) b3).

Fixpoint words (bs : list Z) : list Z :=
  match bs with
  | b0 :: b1 :: b2 :: b3 :: rest => word_of_bytes b0 b1 b2 b3 :: words rest
  | _ => []
  end.

(** The message schedule, newest word first: [w] holds W(t-1), W(t-2), ... *)
Definition next_w (w : list Z) : Z :=
  add32 (add32 (ssig1 (List.nth 1 w 0)) (List.nth 6 w 0))
        (add32 (ssig0 (List.nth 14 w 0)) (List.nth 15 w 0)).

Fixpoint extend (n : nat) (w : list Z) : list Z :=
  match n with
  | O => w
  | S n' => extend n' (next_w w :: w)
  end.

Definition schedule (block : list Z) : list Z :=
  List.rev (extend 48 (List.rev block)).

Definition round (r : regs) (kw : Z * Z) : regs :=
  let '(k, w) := kw in
  let t1 := add32 (add32 (add32 (rh r) (bsig1 (re r))) (Ch (re r) (rf r) (rg r)))
                  (add32 k w) in
  let t2 := add32 (bsig0 (ra r)) (Maj (ra r) (rb r) (rc r)) in
  Regs (add32 t1 t2) (ra r) (rb r) (rc r) (add32 (rd r) t1) (re r) (rf r) (rg r).

Definition compress (h : regs) (block : list Z) : regs :=
  let r := List.fold_left round (List.combine K (schedule block)) h in
  Regs (add32 (ra h) (ra r)) (add32 (rb h) (rb r)) (add32 (rc h) (rc r))
       (add32 (rd h) (rd r)) (add32 (re h) (re r)) (add32 (rf h) (rf r))
       (add32 (rg h) (rg r)) (add32 (rh h) (rh r)).

(** One 512-bit block is sixteen words; [fuel] bounds the number of blocks. *)
Fixpoint blocks (fuel : nat) (ws : list Z) (h : regs) : regs :=
  match fuel, ws with
  | S fuel', _ :: _ => blocks fuel' (List.skipn 16 ws) (compress h (List.firstn 16 ws))
  | _, _ => h
  end.

Definition digest_words (msg : list Z) : list Z :=
  let ws := words (pad msg) in
  let h := blocks (List.length ws) ws H_init in
  [ra h; rb h; rc h; rd h; re h; rf h; rg h; rh h].

Definition hex_digit (n : Z) : ascii :=
  Ascii.ascii_of_N (Z.to_N (if n <? 10 then 48 + n else 87 + n)).

Fixpoint hex_fixed (width : nat) (n : Z) : string :=
  match width with
  | O => EmptyString
  | S w' => String (hex_digit (Z.land (Z.shiftr n (4 * Z.of_nat w')) 0xf)) (hex_fixed w' n)
  end.

(** [hashlib.sha256(b).hexdigest()]: 64 lower-case hexadecimal digits. *)
Definition hexdigest (b : list byte) : string :=
  String.concat "" (List.map (hex_fixed 8)
    (digest_words (List.map (fun x => Z.of_N (Byte.to_N x)) b))).

End Sha256.

(** ** Python strings (code points U+0000 .. U+00FF) *)

Module PyStr.

(** [str.isspace] on one character: the white-space code points of the
    Unicode database that lie below U+0100. *)
Definition isspace (c : ascii) : bool :=
  let n := N_of_ascii c in
  ((9 <=? n) && (n <=? 13) || (28 <=? n) && (n <=? 32)
   || (n =? 0x85) || (n =? 0xA0))%N.

(** The simple lower-case mapping: A-Z, and U+00C0 .. U+00DE without the
    multiplication sign U+00D7. *)
Definition lower_char (c : ascii) : ascii :=
  let n := N_of_ascii c in
  if ((65 <=? n) && (n <=? 90)
      || (0xC0 <=? n) && (n <=? 0xDE) && negb (n =? 0xD7))%N
  then ascii_of_N (n + 32) else c.

Fixpoint lower (s : string) : string :=
  match s with
  | EmptyString => EmptyString
  | String c s' => String (lower_char c) (lower s')
  end.

Fixpoint lstrip (s : string) : string :=
  match s with
  | EmptyString => EmptyString
  | String c s' => if isspace c then lstrip s' else s
  end.

Fixpoint rstrip (s : string) : string :=
  match s with
  | EmptyString => EmptyString
  | String c s' =>
      match rstrip s' with
      | EmptyString => if isspace c then EmptyString else String c EmptyString
      | r => String c r
      end
  end.

Definition strip (s : string) : string := rstrip (lstrip s).

(** [str.encode('utf-8')]: one byte below U+0080, two bytes from there. *)
Definition encode_char (c : ascii) : list byte :=
  let n := N_of_ascii c in
  if (n <? 128)%N then [byte_of_ascii c]
  else [ byte_of_ascii (ascii_of_N (N.lor 0xC0 (N.shiftr n 6)));
         byte_of_ascii (ascii_of_N (N.lor 0x80 (N.land n 0x3F))) ].

Fixpoint encode_utf8 (s : string) : list byte :=
  match s with
  | EmptyString => []
  | String c s' => encode_char c ++ encode_utf8 s'
  end.

(** Truth value of a string: [not s] holds of the empty string only. *)
Definition truthy (s : string) : bool :=
  match s with EmptyString => false | String _ _ => true end.

End PyStr.

(** ** uuid.uuid4 and datetime *)

Module Uuid.

(** [UUID(bytes=os.urandom(16), version=4).int]: the sixteen bytes read as
    a big-endian number, then the variant and version bits are set. Of the
    environment's choice [rnd] the low 128 bits are the sixteen bytes. *)
Definition uuid4 (rnd : Z) : Z :=
  let i := Z.land rnd (Z.ones 128) in
  let i := Z.land i (Z.lnot (Z.shiftl 0xc000 48)) in
  let i := Z.lor i (Z.shiftl 0x8000 48) in
  let i := Z.land i (Z.lnot (Z.shiftl 0xf000 64)) in
  Z.lor i (Z.shiftl 4 76).

(** [str(u)]: ['%032x' % int] cut into groups of 8-4-4-4-12 digits. *)
Definition str (u : Z) : string :=
  let hex := Sha256.hex_fixed 32 u in
  String.substring 0 8 hex +:+ "-" +:+ String.substring 8 4 hex +:+ "-" +:+
  String.substring 12 4 hex +:+ "-" +:+ String.substring 16 4 hex +:+ "-" +:+
  String.substring 20 12 hex.

End Uuid.

Record datetime := Datetime {
  year : Z; month : Z; day : Z; hour : Z; minute : Z; second : Z; microsecond : Z
}.

Fixpoint dec_fixed (width : nat) (n : Z) : string :=
  match width with
  | O => EmptyString
  | S w' =>
      String (ascii_of_N (Z.to_N (48 + (n / 10 ^ Z.of_nat w') mod 10))) (dec_fixed w' n)
  end.

(** [t.strftime("%Y-%m-%d %H:%M:%S")] *)
Definition strftime (t : datetime) : string :=
  dec_fixed 4 (year t) +:+ "-" +:+ dec_fixed 2 (month t) +:+ "-" +:+ dec_fixed 2 (day t)
  +:+ " " +:+ dec_fixed 2 (hour t) +:+ ":" +:+ dec_fixed 2 (minute t) +:+ ":" +:+
  dec_fixed 2 (second t).

(** ** The ledger table and the database session *)

(** A row of [class CertificateHash(db.Model)]. *)
Record CertificateHash := {
  id : Z;
  certificate_id : string;
  data_hash : string;
  issuer_name : string;
  issued_at : datetime
}.

(** A [CertificateHash(...)] object before it is flushed: the primary key and
    the [issued_at] default are filled in by the INSERT. *)
Record new_row := {
  new_certificate_id : string;
  new_data_hash : string;
  new_issuer_name : string
}.

Inductive exn :=
| KeyError (key : string)
| TypeError (detail : string)
| IntegrityError (detail : string).

(** [str(e)]. For the database error this is the driver's line of the
    message. *)
Definition exn_str (e : exn) : string :=
  match e with
  | KeyError k => "'" +:+ k +:+ "'"
  | TypeError d => d
  | IntegrityError d => "(sqlite3.IntegrityError) " +:+ d
  end.

Inductive db_event :=
| EvAdd (r : new_row)
| EvCommit
| EvRollback
| EvQuery (cert_id : string).

Record session := {
  table : list CertificateHash;
  pending : list new_row;
  trace : list db_event
}.

Definition M (A : Type) : Type := session -> (exn + A) * session.

Definition ret {A} (a : A) : M A := fun s => (inr a, s).
Definition raise {A} (e : exn) : M A := fun s => (inl e, s).
Definition bind {A B} (m : M A) (k : A -> M B) : M B :=
  fun s => match m s with
           | (inr a, s') => k a s'
           | (inl e, s') => (inl e, s')
           end.
Definition try_except {A} (body : M A) (handler : exn -> M A) : M A :=
  fun s => match body s with
           | (inr a, s') => (inr a, s')
           | (inl e, s') => handler e s'
           end.

Notation "x <- m ;; k" := (bind m (fun x => k))
  (at level 100, m at next level, right associativity).
Notation "m ;;; k" := (bind m (fun _ => k))
  (at level 100, right associativity).

Definition log (e : db_event) (s : session) : session :=
  {| table := table s; pending := pending s; trace := trace s ++ [e] |}.

(** [db.session.add(obj)] *)
Definition session_add (r : new_row) : M unit :=
  fun s => let s := log (EvAdd r) s in
           (inr tt, {| table := table s; pending := pending s ++ [r]; trace := trace s |}).

(** The row id SQLite gives to an INSERT: one more than the largest one. *)
Definition next_id (t : list CertificateHash) : Z :=
  1 + List.fold_right Z.max 0 (List.map id t).

Definition has_certificate_id (cid : string) (t : list CertificateHash) : bool :=
  existsb (fun r => String.eqb (certificate_id r) cid) t.

(** INSERT of the pending rows in order; the UNIQUE constraint on
    [certificate_id] refuses a value the table already holds. *)
Fixpoint flush (now : datetime) (rows : list new_row) (t : list CertificateHash)
  : exn + list CertificateHash :=
  match rows with
  | [] => inr t
  | r :: rows' =>
      if has_certificate_id (new_certificate_id r) t
      then inl (IntegrityError "UNIQUE constraint failed: certificate_hash.certificate_id")
      else flush now rows'
             (t ++ [ {| id := next_id t;
                        certificate_id := new_certificate_id r;
                        data_hash := new_data_hash r;
                        issuer_name := new_issuer_name r;
                        issued_at := now |} ])
  end.

(** [db.session.commit()]: all pending rows reach the table, or none does and
    the error is raised. [now] is what [datetime.utcnow] returns for the
    column default. *)
Definition session_commit (now : datetime) : M unit :=
  fun s => let s := log EvCommit s in
           match flush now (pending s) (table s) with
           | inr t' => (inr tt, {| table := t'; pending := []; trace := trace s |})
           | inl e => (inl e, s)
           end.

(** [db.session.rollback()] *)
Definition session_rollback : M unit :=
  fun s => let s := log EvRollback s in
           (inr tt, {| table := table s; pending := []; trace := trace s |}).

(** [CertificateHash.query.filter_by(certificate_id=cert_id).first()] *)
Definition first_by_certificate_id (cid : string) (t : list CertificateHash) : option CertificateHash :=
  List.find (fun r => String.eqb (certificate_id r) cid) t.

Definition query_first (cid : string) : M (option CertificateHash) :=
  fun s => (inr (first_by_certificate_id cid (table s)), log (EvQuery cid) s).

(** ** Documents and JSON replies *)

Inductive json := JStr (s : string) | JBool (b : bool).

Definition reply : Type := gmap string json * Z.

(** [k in d], [d.get(k, default)], [d[k]] *)
Definition dict_contains {V} (d : gmap string V) (k : string) : bool :=
  bool_decide (is_Some (d !! k)).
Definition dict_get {V} (d : gmap string V) (k : string) (dflt : V) : V :=
  match d !! k with
  | Some v => v
  | None => dflt
  end.
Definition getitem {V} (d : gmap string V) (k : string) : M V :=
  match d !! k with
  | Some v => ret v
  | None => raise (KeyError k)
  end.

Definition required_fields : list string := ["recipient"; "course"; "date"; "issuer"].

(** ** generate_certificate_hash *)

Definition data_string (data : gmap string string) : string :=
  PyStr.lower (PyStr.strip (dict_get data "recipient" "")) +:+ "|" +:+
  PyStr.lower (PyStr.strip (dict_get data "course" "")) +:+ "|" +:+
  PyStr.strip (dict_get data "date" "") +:+ "|" +:+
  PyStr.lower (PyStr.strip (dict_get data "issuer" "")).

Definition generate_certificate_hash (data : gmap string string) : string :=
  Sha256.hexdigest (PyStr.encode_utf8 (data_string data)).

(** ** IssueCertificate.post *)

Definition IssueCertificate_post (rnd : Z) (now : datetime) (data : gmap string string)
  : M reply :=
  try_except
    (if negb (forallb (dict_contains data) required_fields) then
       ret ({[ "message" := JStr "Missing required fields: recipient, course, date, issuer" ]}, 400)
     else
       let new_hash := generate_certificate_hash data in
       let cert_uuid := Uuid.str (Uuid.uuid4 rnd) in
       issuer <- getitem data "issuer" ;;
       let new_record := {| new_certificate_id := cert_uuid;
                            new_data_hash := new_hash;
                            new_issuer_name := issuer |} in
       session_add new_record ;;;
       session_commit now ;;;
       recipient <- getitem data "recipient" ;;
       ret ({[ "message" := JStr "Certificate hash successfully issued and recorded on the ledger.";
               "certificate_id" := JStr cert_uuid;
               "recorded_hash" := JStr new_hash;
               "issued_to" := JStr recipient ]}, 201))
    (fun e =>
       session_rollback ;;;
       ret ({[ "message" := JStr ("An error occurred during issuance: " +:+ exn_str e) ]}, 500)).

(** ** VerifyCertificate.post *)

(** The request body: [data.get('certificate_id')] and
    [data.get('certificate_data')] are [None] when the key is absent. *)
Record verify_request := {
  req_certificate_id : option string;
  req_certificate_data : option (gmap string string)
}.

(** [not cert_id]: [None] or the empty string. [not cert_data]: [None] or the
    empty dict. *)
Definition falsy_id (o : option string) : bool :=
  match o with Some s => negb (PyStr.truthy s) | None => true end.
Definition falsy_dict (o : option (gmap string string)) : bool :=
  match o with Some d => bool_decide (d = ∅) | None => true end.

Definition VerifyCertificate_post (req : verify_request) : M reply :=
  try_except
    (let cert_id := req_certificate_id req in
     let cert_data := req_certificate_data req in
     if falsy_id cert_id || falsy_dict cert_data then
       ret ({[ "message" := JStr "Missing certificate_id or certificate_data." ]}, 400)
     else
       match cert_id, cert_data with
       | Some cert_id, Some cert_data =>
           if negb (forallb (dict_contains cert_data) required_fields) then
             ret ({[ "message" := JStr "Certificate data provided is incomplete." ]}, 400)
           else
             ledger_record <- query_first cert_id ;;
             match ledger_record with
             | None =>
                 ret ({[ "message" := JStr "Certificate ID not found on the ledger.";
                         "authentic" := JBool false ]}, 404)
             | Some ledger_record =>
                 let verifier_hash := generate_certificate_hash cert_data in
                 let stored_hash := data_hash ledger_record in
                 if String.eqb verifier_hash stored_hash then
                   ret ({[ "message" := JStr "VERIFIED: The certificate is authentic and has not been tampered with.";
                           "authentic" := JBool true;
                           "recorded_hash" := JStr stored_hash;
                           "verified_hash" := JStr verifier_hash;
                           "issued_at" := JStr (strftime (issued_at ledger_record)) ]}, 200)
                 else
                   ret ({[ "message" := JStr "FAILED: The certificate data has been altered since issuance.";
                           "authentic" := JBool false;
                           "recorded_hash" := JStr stored_hash;
                           "verified_hash" := JStr verifier_hash ]}, 200)
             end
       | _, _ =>
           (* not reached: a [None] is falsy and was answered above *)
           raise (TypeError "argument of type 'NoneType' is not iterable")
       end)
    (fun e =>
       ret ({[ "message" := JStr ("An error occurred during verification: " +:+ exn_str e) ]}, 500)).

(** ** Requests against the store *)

(** A request runs in a session of its own over the table as it stands; the
    table it leaves is the store the next request sees. *)
Definition open_session (t : list CertificateHash) : session :=
  {| table := t; pending := []; trace := [] |}.

Definition Issue (rnd : Z) (now : datetime) (data : gmap string string)
  (t : list CertificateHash) : (exn + reply) * session :=
  IssueCertificate_post rnd now data (open_session t).

Definition Verify (req : verify_request) (t : list CertificateHash)
  : (exn + reply) * session :=
  VerifyCertificate_post req (open_session t).

(** The two routes registered with [api.add_resource]. *)
Inductive op :=
| OpIssue (rnd : Z) (now : datetime) (data : gmap string string)
| OpVerify (req : verify_request).

Definition step (t : list CertificateHash) (o : op) : list CertificateHash :=
  match o with
  | OpIssue rnd now data => table (snd (Issue rnd now data t))
  | OpVerify req => table (snd (Verify req t))
  end.

Definition run_ops (t : list CertificateHash) (ops : list op) : list CertificateHash :=
  List.fold_left step ops t.

(** The reply of a request, and the identifier a successful Issue returns. *)
Definition reply_of (o : op) (t : list CertificateHash) : exn + reply :=
  match o with
  | OpIssue rnd now data => fst (Issue rnd now data t)
  | OpVerify req => fst (Verify req t)
  end.

Definition field (k : string) (r : exn + reply) : option json :=
  match r with
  | inr (body, _) => body !! k
  | inl _ => None
  end.

Definition status (r : exn + reply) : option Z :=
  match r with
  | inr (_, code) => Some code
  | inl _ => None
  end.

Definition issued_id (r : exn + reply) : option string :=
  match status r, field "certificate_id" r with
  | Some 201, Some (JStr cid) => Some cid
  | _, _ => None
  end.

(** The identifiers handed out by the successful Issue calls of a run. *)
Fixpoint issued_ids (t : list CertificateHash) (ops : list op) : list string :=
  match ops with
  | [] => []
  | o :: ops' =>
      match o with
      | OpIssue _ _ _ => option_list (issued_id (reply_of o t))
      | OpVerify _ => []
      end ++ issued_ids (step t o) ops'
  end.

Definition has_fields (d : gmap string string) : bool :=
  forallb (dict_contains d) required_fields.

(** A document with exactly the four recognised fields. *)
Definition doc (recipient course date issuer : string) : gmap string string :=
  {[ "recipient" := recipient; "course" := course; "date" := date; "issuer" := issuer ]}.

(** ** The canonical form as the specification words it *)

Module Reference.

(** Strip surrounding white space, then convert to lower case. *)
Definition normalize (v : string) : string := PyStr.lower (PyStr.strip v).

Fixpoint values (d : gmap string string) (ks : list string) : option (list string) :=
  match ks with
  | [] => Some []
  | k :: ks' =>
      match d !! k, values d ks' with
      | Some v, Some vs => Some (v :: vs)
      | _, _ => None
      end
  end.

(** Every field in the fixed order, normalised, joined with the pipe,
    encoded as UTF-8. *)
Definition canonicalize (d : gmap string string) : option (list byte) :=
  vs ← values d required_fields;
  Some (PyStr.encode_utf8 (String.concat "|" (List.map normalize vs))).

Definition fingerprint (d : gmap string string) : option string :=
  Sha256.hexdigest <$> canonicalize d.

(** The same, with the normalisation chosen by field name: the date is
    stripped and keeps its letter case. *)
Definition normalize_field (k v : string) : string :=
  if String.eqb k "date" then PyStr.strip v else PyStr.lower (PyStr.strip v).

Fixpoint normalized (d : gmap string string) (ks : list string) : option (list string) :=
  match ks with
  | [] => Some []
  | k :: ks' =>
      match d !! k, normalized d ks' with
      | Some v, Some vs => Some (normalize_field k v :: vs)
      | _, _ => None
      end
  end.

Definition canonicalize_by_field (d : gmap string string) : option (list byte) :=
  vs ← normalized d required_fields;
  Some (PyStr.encode_utf8 (String.concat "|" vs)).

Definition fingerprint_by_field (d : gmap string string) : option string :=
  Sha256.hexdigest <$> canonicalize_by_field d.

End Reference.

(** The canonical bytes the code hashes. *)
Definition canonical_bytes (data : gmap string string) : list byte :=
  PyStr.encode_utf8 (data_string data).

(** ** Values that differ only in surrounding white space or letter case *)

Fixpoint all_space (s : string) : bool :=
  match s with
  | EmptyString => true
  | String c s' => PyStr.isspace c && all_space s'
  end.

Fixpoint same_letters (v w : string) : bool :=
  match v, w with
  | EmptyString, EmptyString => true
  | String a v', String b w' =>
      Ascii.eqb (PyStr.lower_char a) (PyStr.lower_char b) && same_letters v' w'
  | _, _ => false
  end.

(** [v] and [w] are a common core wrapped in white space. *)
Definition differ_in_space (v w : string) : Prop :=
  exists l1 r1 l2 r2 c,
    all_space l1 = true /\ all_space r1 = true /\
    all_space l2 = true /\ all_space r2 = true /\
    v = l1 +:+ c +:+ r1 /\ w = l2 +:+ c +:+ r2.

(** [v] and [w] are cores equal up to letter case, wrapped in white space. *)
Definition differ_in_space_or_case (v w : string) : Prop :=
  exists l1 r1 l2 r2 c1 c2,
    all_space l1 = true /\ all_space r1 = true /\
    all_space l2 = true /\ all_space r2 = true /\
    same_letters c1 c2 = true /\
    v = l1 +:+ c1 +:+ r1 /\ w = l2 +:+ c2 +:+ r2.

Definition fields_related (R : string -> string -> Prop) (ks : list string)
  (d1 d2 : gmap string string) : Prop :=
  Forall (fun k => exists v w, d1 !! k = Some v /\ d2 !! k = Some w /\ R v w) ks.

(** The row a successful Issue appends, and the replies of the handlers. *)
Definition issued_new_row (rnd : Z) (data : gmap string string) : new_row :=
  {| new_certificate_id := Uuid.str (Uuid.uuid4 rnd);
     new_data_hash := generate_certificate_hash data;
     new_issuer_name := dict_get data "issuer" "" |}.

Definition issued_row (rnd : Z) (now : datetime) (data : gmap string string)
  (t : list CertificateHash) : CertificateHash :=
  {| id := next_id t;
     certificate_id := Uuid.str (Uuid.uuid4 rnd);
     data_hash := generate_certificate_hash data;
     issuer_name := dict_get data "issuer" "";
     issued_at := now |}.

Definition issued_reply (rnd : Z) (data : gmap string string) : reply :=
  ({[ "message" := JStr "Certificate hash successfully issued and recorded on the ledger.";
      "certificate_id" := JStr (Uuid.str (Uuid.uuid4 rnd));
      "recorded_hash" := JStr (generate_certificate_hash data);
      "issued_to" := JStr (dict_get data "recipient" "") ]}, 201).

Definition message_reply (msg : string) (code : Z) : reply :=
  ({[ "message" := JStr msg ]}, code).

Definition not_found_reply : reply :=
  ({[ "message" := JStr "Certificate ID not found on the ledger.";
      "authentic" := JBool false ]}, 404).

Definition found_reply (r : CertificateHash) (verifier_hash : string) : reply :=
  if String.eqb verifier_hash (data_hash r) then
    ({[ "message" := JStr "VERIFIED: The certificate is authentic and has not been tampered with.";
        "authentic" := JBool true;
        "recorded_hash" := JStr (data_hash r);
        "verified_hash" := JStr verifier_hash;
        "issued_at" := JStr (strftime (issued_at r)) ]}, 200)
  else
    ({[ "message" := JStr "FAILED: The certificate data has been altered since issuance.";
        "authentic" := JBool false;
        "recorded_hash" := JStr (data_hash r);
        "verified_hash" := JStr verifier_hash ]}, 200).

Definition is_query (e : db_event) : bool :=
  match e with EvQuery _ => true | _ => false end.

Definition verify_of (cid : string) (d : gmap string string) : verify_request :=
  {| req_certificate_id := Some cid; req_certificate_data := Some d |}.

(** ** Further definitions *)

(** [CertificateHash.__repr__] *)
Definition CertificateHash_repr (r : CertificateHash) : string :=
  "<Cert " +:+ certificate_id r +:+ ">".

(** The request body with neither an identifier nor a document. *)
Definition falsy_request (req : verify_request) : bool :=
  falsy_id (req_certificate_id req) || falsy_dict (req_certificate_data req).

(** Whether the generated identifier is free in the table. *)
Definition fresh (rnd : Z) (t : list CertificateHash) : bool :=
  negb (has_certificate_id (Uuid.str (Uuid.uuid4 rnd)) t).

(** [bytes.decode('utf-8')] on the one- and two-byte forms that encode the
    code points below U+0100; [None] on anything else. *)
Fixpoint decode_utf8 (b : list byte) : option string :=
  match b with
  | [] => Some EmptyString
  | x :: rest =>
      let n := Byte.to_N x in
      if (n <? 128)%N then String (ascii_of_byte x) <$> decode_utf8 rest
      else
        match rest with
        | y :: rest' =>
            let m := Byte.to_N y in
            let cp := N.lor (N.shiftl (N.land n 0x1F) 6) (N.land m 0x3F) in
            if ((N.shiftr n 5 =? 6) && (N.shiftr m 6 =? 2) && (128 <=? cp) && (cp <? 256))%N
            then String (ascii_of_N cp) <$> decode_utf8 rest'
            else None
        | [] => None
        end
  end.

Fixpoint all_chars (p : ascii -> bool) (s : string) : bool :=
  match s with
  | EmptyString => true
  | String c s' => p c && all_chars p s'
  end.

Definition is_pipe (c : ascii) : bool := Ascii.eqb c "|".
Definition no_pipe (s : string) : bool := all_chars (fun c => negb (is_pipe c)) s.

(** A digit of [0-9a-f]. *)
Definition is_lower_hex (c : ascii) : bool :=
  let n := N_of_ascii c in
  ((48 <=? n) && (n <=? 57) || (97 <=? n) && (n <=? 102))%N.

(** The document with every field replaced by its normal form. *)
Definition normal_doc (recipient course date issuer : string) : gmap string string :=
  doc (PyStr.lower (PyStr.strip recipient)) (PyStr.lower (PyStr.strip course))
      (PyStr.strip date) (PyStr.lower (PyStr.strip issuer)).

(** Recipient, course and date are present and hold no pipe. *)
Definition pipe_free (d : gmap string string) : Prop :=
  Forall (fun k => exists v, d !! k = Some v /\ no_pipe v = true)
         ["recipient"; "course"; "date"].

(** Reading a decimal numeral, and the six numbers of a printed time. *)
Definition digit_value (c : ascii) : Z := Z.of_N (N_of_ascii c) - 48.

Fixpoint dec_value_from (acc : Z) (s : string) : Z :=
  match s with
  | EmptyString => acc
  | String c s' => dec_value_from (10 * acc + digit_value c) s'
  end.

Definition dec_value (s : string) : Z := dec_value_from 0 s.

Definition parse_time (s : string) : datetime :=
  Datetime (dec_value (String.substring 0 4 s)) (dec_value (String.substring 5 2 s))
           (dec_value (String.substring 8 2 s)) (dec_value (String.substring 11 2 s))
           (dec_value (String.substring 14 2 s)) (dec_value (String.substring 17 2 s)) 0.

(** A clock reading of [datetime.utcnow()] with a four-digit year. *)
Definition valid_time (t : datetime) : Prop :=
  1000 <= year t <= 9999 /\ 1 <= month t <= 12 /\ 1 <= day t <= 31 /\
  0 <= hour t <= 23 /\ 0 <= minute t <= 59 /\ 0 <= second t <= 59 /\
  0 <= microsecond t <= 999999.

(** SHA-256 tells the canonical forms of two documents apart. *)
Definition no_collision (d1 d2 : gmap string string) : Prop :=
  canonical_bytes d1 <> canonical_bytes d2 ->
  generate_certificate_hash d1 <> generate_certificate_hash d2.

(** White space at the first and at the last position of a string. *)
Definition starts_with_space (s : string) : bool :=
  match s with
  | EmptyString => false
  | String c _ => PyStr.isspace c
  end.

Fixpoint ends_with_space (s : string) : bool :=
  match s with
  | EmptyString => false
  | String c s' =>
      match s' with
      | EmptyString => PyStr.isspace c
      | String _ _ => ends_with_space s'
      end
  end.

(** The largest row id of SQLite, a signed 64-bit number. *)
Definition max_rowid : Z := 2 ^ 63 - 1.

(** ** Properties *)

Example sha256_constants :
  List.nth 0 Sha256.K 0 = 0x428a2f98 /\ List.nth 63 Sha256.K 0 = 0xc67178f2 /\
  Sha256.ra Sha256.H_init = 0x6a09e667 /\ Sha256.rh Sha256.H_init = 0x5be0cd19.
Proof. vm_compute. repeat split; reflexivity. Qed.

Example sha256_empty :
  Sha256.hexdigest [] = "e3b0c44298fc1c149afbf4c8996fb92427ae41e4649b934ca495991b7852b855".
Proof. vm_compute. reflexivity. Qed.

Example sha256_abc :
  Sha256.hexdigest ["a"%byte; "b"%byte; "c"%byte]
  = "ba7816bf8f01cfea414140de5dae2223b00361a396177a9cb410ff61f20015ad".
Proof. vm_compute. reflexivity. Qed.

Example sha256_two_blocks :
  Sha256.hexdigest
    (PyStr.encode_utf8 "abcdbcdecdefdefgefghfghighijhijkijkljklmklmnlmnomnopnopq")
  = "248d6a61d20638b8e5c026930c3e6039a33ce45964ff2167f6ecedd419db06c1".
Proof. vm_compute. reflexivity. Qed.

Example hash_bob_lee :
  generate_certificate_hash (doc "Bob Lee" "Systems Design" "2024-01-10" "Acme")
  = "6c10b3404e687938f56ea859003f91a64de1792b312a5aa18bb4ae55f479a5ad".
Proof. vm_compute. reflexivity. Qed.

Example uuid4_str_example :
  Uuid.str (Uuid.uuid4 12345678901234567890) = "00000000-0000-4000-ab54-a98ceb1f0ad2".
Proof. vm_compute. reflexivity. Qed.

Section Strings.

Lemma append_nil (s : string) : "" +:+ s = s.
Proof. reflexivity. Qed.

Lemma append_cons a (s1 s2 : string) : String a s1 +:+ s2 = String a (s1 +:+ s2).
Proof. reflexivity. Qed.

Lemma append_nil_r (s : string) : s +:+ "" = s.
Proof.
  induction s as [|a s IH]; [reflexivity |]. now rewrite append_cons, IH.
Qed.

Lemma lstrip_all_space l : all_space l = true -> PyStr.lstrip l = "".
Proof.
  induction l as [|a l IH]; simpl; [reflexivity |].
  intros [Ha Hl]%andb_true_iff. rewrite Ha. auto.
Qed.

Lemma lstrip_app_space l s : all_space l = true -> PyStr.lstrip (l +:+ s) = PyStr.lstrip s.
Proof.
  induction l as [|a l IH]; [reflexivity |].
  rewrite append_cons. simpl.
  intros [Ha Hl]%andb_true_iff. rewrite Ha. auto.
Qed.

Lemma rstrip_all_space r : all_space r = true -> PyStr.rstrip r = "".
Proof.
  induction r as [|a r IH]; simpl; [reflexivity |].
  intros [Ha Hr]%andb_true_iff. rewrite (IH Hr), Ha. reflexivity.
Qed.

Lemma rstrip_app_space s r : all_space r = true -> PyStr.rstrip (s +:+ r) = PyStr.rstrip s.
Proof.
  intros Hr. induction s as [|a s IH].
  - rewrite append_nil. now apply rstrip_all_space.
  - rewrite append_cons. simpl. now rewrite IH.
Qed.

Lemma strip_core_right c r :
  all_space r = true -> PyStr.strip (c +:+ r) = PyStr.strip c.
Proof.
  intros Hr. unfold PyStr.strip. induction c as [|a c IH].
  - rewrite append_nil, (lstrip_all_space r Hr). reflexivity.
  - rewrite append_cons. simpl.
    destruct (PyStr.isspace a); [exact IH |].
    rewrite <- append_cons. now apply rstrip_app_space.
Qed.

(** White space around a core does not survive [strip]. *)
Lemma strip_wrapped l c r :
  all_space l = true -> all_space r = true ->
  PyStr.strip (l +:+ c +:+ r) = PyStr.strip c.
Proof.
  intros Hl Hr. unfold PyStr.strip at 1.
  rewrite (lstrip_app_space l _ Hl).
  now apply strip_core_right.
Qed.

Lemma isspace_lower_char a : PyStr.isspace (PyStr.lower_char a) = PyStr.isspace a.
Proof.
  destruct a as [[] [] [] [] [] [] [] []]; vm_compute; reflexivity.
Qed.

Lemma same_letter_isspace a b :
  PyStr.lower_char a = PyStr.lower_char b -> PyStr.isspace a = PyStr.isspace b.
Proof.
  intros H. rewrite <- (isspace_lower_char a), <- (isspace_lower_char b). now rewrite H.
Qed.

Lemma same_letters_lstrip v w :
  same_letters v w = true -> same_letters (PyStr.lstrip v) (PyStr.lstrip w) = true.
Proof.
  revert w. induction v as [|a v IH]; intros [|b w]; simpl; try discriminate; [reflexivity |].
  intros Hvw. pose proof Hvw as [Hab Hrest]%andb_true_iff.
  apply Ascii.eqb_eq in Hab. rewrite (same_letter_isspace a b Hab).
  destruct (PyStr.isspace b); [now apply IH | exact Hvw].
Qed.

Lemma lower_rstrip_same v w :
  same_letters v w = true ->
  PyStr.lower (PyStr.rstrip v) = PyStr.lower (PyStr.rstrip w).
Proof.
  revert w. induction v as [|a v IH]; intros [|b w]; simpl; try discriminate; [reflexivity |].
  intros [Hab Hvw]%andb_true_iff. apply Ascii.eqb_eq in Hab.
  specialize (IH w Hvw).
  pose proof (same_letter_isspace a b Hab) as Hsp.
  destruct (PyStr.rstrip v) as [|x v'] eqn:Ev, (PyStr.rstrip w) as [|y w'] eqn:Ew;
    simpl in IH; try discriminate.
  - rewrite Hsp. destruct (PyStr.isspace b); simpl; [reflexivity | now rewrite Hab].
  - simpl. now rewrite Hab, IH.
Qed.

(** Cores equal up to letter case have the same normal form. *)
Lemma lower_strip_same v w :
  same_letters v w = true ->
  PyStr.lower (PyStr.strip v) = PyStr.lower (PyStr.strip w).
Proof.
  intros H. unfold PyStr.strip. apply lower_rstrip_same. now apply same_letters_lstrip.
Qed.

Lemma strip_differ_in_space v w : differ_in_space v w -> PyStr.strip v = PyStr.strip w.
Proof.
  intros (l1 & r1 & l2 & r2 & c & Hl1 & Hr1 & Hl2 & Hr2 & -> & ->).
  now rewrite !strip_wrapped.
Qed.

Lemma normalize_differ_in_space_or_case v w :
  differ_in_space_or_case v w ->
  PyStr.lower (PyStr.strip v) = PyStr.lower (PyStr.strip w).
Proof.
  intros (l1 & r1 & l2 & r2 & c1 & c2 & Hl1 & Hr1 & Hl2 & Hr2 & Hc & -> & ->).
  rewrite !strip_wrapped by assumption. now apply lower_strip_same.
Qed.

End Strings.

Section Canonical.

Lemma has_fields_lookup d :
  has_fields d = true ->
  exists r c dt i,
    d !! "recipient" = Some r /\ d !! "course" = Some c /\
    d !! "date" = Some dt /\ d !! "issuer" = Some i.
Proof.
  unfold has_fields, required_fields, dict_contains. cbn [forallb].
  rewrite !andb_true_iff, !bool_decide_eq_true.
  intros ([r Hr] & [c Hc] & [dt Hdt] & [i Hi] & _). eauto 10.
Qed.

Lemma same_letters_differ v w : same_letters v w = true -> differ_in_space_or_case v w.
Proof.
  intros H. exists "", "", "", "", v, w.
  rewrite !append_nil, !append_nil_r. repeat split; trivial.
Qed.

Lemma related_data_string d1 d2 :
  fields_related differ_in_space_or_case ["recipient"; "course"; "issuer"] d1 d2 ->
  fields_related differ_in_space ["date"] d1 d2 ->
  data_string d1 = data_string d2.
Proof.
  unfold fields_related. rewrite !Forall_cons.
  intros ((r1 & r2 & Hr1 & Hr2 & Hr) & (c1 & c2 & Hc1 & Hc2 & Hc)
          & (i1 & i2 & Hi1 & Hi2 & Hi) & _)
         ((t1 & t2 & Ht1 & Ht2 & Ht) & _).
  unfold data_string, dict_get.
  rewrite Hr1, Hr2, Hc1, Hc2, Hi1, Hi2, Ht1, Ht2.
  rewrite (normalize_differ_in_space_or_case _ _ Hr),
          (normalize_differ_in_space_or_case _ _ Hc),
          (normalize_differ_in_space_or_case _ _ Hi),
          (strip_differ_in_space _ _ Ht).
  reflexivity.
Qed.

End Canonical.

(** C1 (defect of the code): the comment of [generate_certificate_hash] says
    the values are stripped and lower-cased, and recipient, course and issuer
    are, but the date is only stripped. On a date that holds letters the
    bytes the code hashes are not those of the reference definition, which
    lower-cases all four fields, and the fingerprints differ. *)
Lemma C1_date_keeps_case :
  let d := doc "Bob Lee" "Systems Design" "10 Jan 2024" "Acme" in
  has_fields d = true /\
  data_string d = "bob lee|systems design|10 Jan 2024|acme" /\
  Reference.canonicalize d
  = Some (PyStr.encode_utf8 "bob lee|systems design|10 jan 2024|acme") /\
  Reference.canonicalize d <> Some (canonical_bytes d) /\
  Reference.fingerprint d <> Some (generate_certificate_hash d).
Proof. vm_compute. repeat split; discriminate. Qed.

(** The bytes the code hashes, field by field: the values in the order
    recipient, course, date, issuer, each normalised by
    [Reference.normalize_field], joined with the pipe and encoded. *)
Lemma canonical_bytes_by_field d :
  has_fields d = true ->
  Reference.canonicalize_by_field d = Some (canonical_bytes d) /\
  Reference.fingerprint_by_field d = Some (generate_certificate_hash d).
Proof.
  intros (r & c & dt & i & Hr & Hc & Hdt & Hi)%has_fields_lookup.
  assert (Reference.canonicalize_by_field d = Some (canonical_bytes d)) as E.
  { unfold Reference.canonicalize_by_field, canonical_bytes, data_string, dict_get,
      required_fields.
    cbn [Reference.normalized]. rewrite Hr, Hc, Hdt, Hi. reflexivity. }
  split; [exact E |].
  unfold Reference.fingerprint_by_field. rewrite E. reflexivity.
Qed.

(** C4 (defect of the code, the one of C1): two documents that differ only in
    the letter case of the date, which the comment of
    [generate_certificate_hash] promises to lower-case like the other three
    fields, have different canonical bytes and different fingerprints. *)
Lemma C4_date_case_matters :
  let d1 := doc "Bob Lee" "Systems Design" "10 JAN 2024" "Acme" in
  let d2 := doc "Bob Lee" "Systems Design" "10 jan 2024" "Acme" in
  has_fields d1 = true /\ has_fields d2 = true /\
  fields_related differ_in_space_or_case required_fields d1 d2 /\
  data_string d1 = "bob lee|systems design|10 JAN 2024|acme" /\
  data_string d2 = "bob lee|systems design|10 jan 2024|acme" /\
  canonical_bytes d1 <> canonical_bytes d2 /\
  generate_certificate_hash d1 <> generate_certificate_hash d2.
Proof.
  cbv zeta. split; [reflexivity |]. split; [reflexivity |]. split.
  - unfold fields_related, required_fields.
    repeat apply Forall_cons_2; try apply Forall_nil_2;
      (eexists _, _; split; [reflexivity |]; split; [reflexivity |];
       apply same_letters_differ; reflexivity).
  - split; [vm_compute; reflexivity |]. split; [vm_compute; reflexivity |].
    split; vm_compute; discriminate.
Qed.

(** C9: the pipe is not escaped. Two documents with different recipient and
    course, one of them with the pipe inside the recipient, have the same
    canonical bytes and the same fingerprint. *)
Theorem C9_delimiter_collision :
  exists d1 d2 : gmap string string,
    has_fields d1 = true /\ has_fields d2 = true /\
    d1 !! "recipient" = Some "a|b" /\ d1 !! "course" = Some "c" /\
    d2 !! "recipient" = Some "a" /\ d2 !! "course" = Some "b|c" /\
    (d1 !! "recipient", d1 !! "course") <> (d2 !! "recipient", d2 !! "course") /\
    canonical_bytes d1 = canonical_bytes d2 /\
    generate_certificate_hash d1 = generate_certificate_hash d2.
Proof.
  exists (doc "a|b" "c" "2024-01-10" "Acme"), (doc "a" "b|c" "2024-01-10" "Acme").
  repeat split; try reflexivity. vm_compute. discriminate.
Qed.

Section Handlers.

Implicit Types (t : list CertificateHash) (data d : gmap string string)
  (cid : string) (rnd : Z) (now : datetime).

Lemma first_None cid t : first_by_certificate_id cid t = None <-> has_certificate_id cid t = false.
Proof.
  unfold first_by_certificate_id, has_certificate_id. induction t as [|r t IH]; simpl; [tauto |].
  destruct (String.eqb (certificate_id r) cid); simpl; [split; discriminate | exact IH].
Qed.

Lemma first_app_Some cid t more r :
  first_by_certificate_id cid t = Some r -> first_by_certificate_id cid (t ++ more) = Some r.
Proof.
  unfold first_by_certificate_id. induction t as [|x t IH]; simpl; [discriminate |].
  destruct (String.eqb (certificate_id x) cid); [trivial | exact IH].
Qed.

Lemma first_app_fresh cid t r :
  first_by_certificate_id cid t = None -> certificate_id r = cid -> first_by_certificate_id cid (t ++ [r]) = Some r.
Proof.
  unfold first_by_certificate_id. intros Hn Hr. induction t as [|x t IH]; simpl in *.
  - rewrite Hr, String.eqb_refl. reflexivity.
  - destruct (String.eqb (certificate_id x) cid); [discriminate | auto].
Qed.

Lemma has_certificate_id_elem cid t :
  has_certificate_id cid t = true <-> cid ∈ certificate_id <$> t.
Proof.
  unfold has_certificate_id. induction t as [|x t IH]; simpl.
  - split; [discriminate | intros H; inversion H].
  - rewrite orb_true_iff, IH, elem_of_cons, String.eqb_eq. split; intros [->|H]; auto.
Qed.

Lemma has_certificate_id_not_elem cid t :
  has_certificate_id cid t = false <-> cid ∉ certificate_id <$> t.
Proof.
  rewrite <- has_certificate_id_elem. destruct (has_certificate_id cid t); split; congruence.
Qed.

(** *** Issue, case by case *)

Lemma Issue_missing rnd now data t :
  has_fields data = false ->
  Issue rnd now data t =
    (inr (message_reply "Missing required fields: recipient, course, date, issuer" 400),
     open_session t).
Proof.
  intros H. unfold Issue, IssueCertificate_post, try_except.
  fold (has_fields data). rewrite H. reflexivity.
Qed.

Lemma Issue_fresh rnd now data t :
  has_fields data = true ->
  has_certificate_id (Uuid.str (Uuid.uuid4 rnd)) t = false ->
  Issue rnd now data t =
    (inr (issued_reply rnd data),
     {| table := t ++ [issued_row rnd now data t]; pending := [];
        trace := [EvAdd (issued_new_row rnd data); EvCommit] |}).
Proof.
  intros H Hfresh.
  pose proof H as (r & c & dt & i & Hr & Hc & Hdt & Hi)%has_fields_lookup.
  unfold Issue, IssueCertificate_post, try_except, issued_reply, issued_row, issued_new_row.
  fold (has_fields data). rewrite H. cbn [negb].
  unfold bind, getitem, dict_get. rewrite Hi, Hr.
  unfold ret, session_add, session_commit, log, open_session.
  cbn [table pending trace flush app new_certificate_id].
  rewrite Hfresh. reflexivity.
Qed.

Lemma Issue_collision rnd now data t :
  has_fields data = true ->
  has_certificate_id (Uuid.str (Uuid.uuid4 rnd)) t = true ->
  Issue rnd now data t =
    (inr (message_reply
            ("An error occurred during issuance: " +:+
             exn_str (IntegrityError "UNIQUE constraint failed: certificate_hash.certificate_id"))
            500),
     {| table := t; pending := [];
        trace := [EvAdd (issued_new_row rnd data); EvCommit; EvRollback] |}).
Proof.
  intros H Hdup.
  pose proof H as (r & c & dt & i & Hr & Hc & Hdt & Hi)%has_fields_lookup.
  unfold Issue, IssueCertificate_post, try_except, issued_new_row.
  fold (has_fields data). rewrite H. cbn [negb].
  unfold bind, getitem, dict_get. rewrite Hi.
  unfold ret, session_add, session_commit, session_rollback, log, open_session.
  cbn [table pending trace flush app new_certificate_id].
  rewrite Hdup. reflexivity.
Qed.

(** A reply that carries an identifier comes from the successful path. *)
Lemma issued_id_inv rnd now data t cid :
  issued_id (fst (Issue rnd now data t)) = Some cid ->
  has_fields data = true /\
  has_certificate_id (Uuid.str (Uuid.uuid4 rnd)) t = false /\
  cid = Uuid.str (Uuid.uuid4 rnd).
Proof.
  destruct (has_fields data) eqn:Hf.
  - destruct (has_certificate_id (Uuid.str (Uuid.uuid4 rnd)) t) eqn:Hc.
    + rewrite (Issue_collision _ _ _ _ Hf Hc). discriminate.
    + rewrite (Issue_fresh _ _ _ _ Hf Hc). intros [= <-]. auto.
  - rewrite (Issue_missing _ _ _ _ Hf). discriminate.
Qed.

Lemma step_issue rnd now data t :
  step t (OpIssue rnd now data) =
    if has_fields data && negb (has_certificate_id (Uuid.str (Uuid.uuid4 rnd)) t)
    then t ++ [issued_row rnd now data t] else t.
Proof.
  unfold step. destruct (has_fields data) eqn:Hf.
  - destruct (has_certificate_id (Uuid.str (Uuid.uuid4 rnd)) t) eqn:Hc.
    + now rewrite (Issue_collision _ _ _ _ Hf Hc).
    + now rewrite (Issue_fresh _ _ _ _ Hf Hc).
  - now rewrite (Issue_missing _ _ _ _ Hf).
Qed.

(** *** Verify, case by case *)

Lemma has_fields_nonempty d : has_fields d = true -> d <> ∅.
Proof.
  intros (r & _ & _ & _ & Hr & _)%has_fields_lookup ->.
  rewrite lookup_empty in Hr. discriminate.
Qed.

Lemma Verify_missing req t :
  falsy_id (req_certificate_id req) || falsy_dict (req_certificate_data req) = true ->
  Verify req t =
    (inr (message_reply "Missing certificate_id or certificate_data." 400), open_session t).
Proof.
  intros H. unfold Verify, VerifyCertificate_post, try_except. rewrite H. reflexivity.
Qed.

Lemma Verify_incomplete o d t :
  has_fields d = false ->
  exists msg, Verify {| req_certificate_id := o; req_certificate_data := Some d |} t =
    (inr (message_reply msg 400), open_session t).
Proof.
  intros H. unfold Verify, VerifyCertificate_post, try_except.
  cbn [req_certificate_id req_certificate_data].
  destruct (falsy_id o || falsy_dict (Some d)) eqn:E; [eexists; reflexivity |].
  destruct o as [cid|]; [| discriminate].
  fold (has_fields d). rewrite H. eexists; reflexivity.
Qed.

Lemma Verify_complete cid d t :
  cid <> "" -> has_fields d = true ->
  Verify (verify_of cid d) t =
    (inr match first_by_certificate_id cid t with
         | None => not_found_reply
         | Some r => found_reply r (generate_certificate_hash d)
         end,
     log (EvQuery cid) (open_session t)).
Proof.
  intros Hcid Hd. unfold Verify, VerifyCertificate_post, try_except, verify_of.
  cbn [req_certificate_id req_certificate_data].
  assert (falsy_id (Some cid) || falsy_dict (Some d) = false) as ->.
  { apply orb_false_iff. split.
    - destruct cid; [congruence | reflexivity].
    - apply bool_decide_eq_false. now apply has_fields_nonempty. }
  fold (has_fields d). rewrite Hd. cbn [negb].
  unfold bind, query_first, found_reply. change (table (open_session t)) with t.
  destruct (first_by_certificate_id cid t) as [r|]; [| reflexivity].
  destruct (String.eqb (generate_certificate_hash d) (data_hash r)); reflexivity.
Qed.

(** Every Verify call ends in one of three ways. *)
Lemma Verify_cases req t :
  (exists msg, Verify req t = (inr (message_reply msg 400), open_session t)) \/
  (exists cid,
     first_by_certificate_id cid t = None /\
     Verify req t = (inr not_found_reply, log (EvQuery cid) (open_session t))) \/
  (exists cid d r,
     first_by_certificate_id cid t = Some r /\
     Verify req t = (inr (found_reply r (generate_certificate_hash d)),
                     log (EvQuery cid) (open_session t))).
Proof.
  destruct (falsy_id (req_certificate_id req) || falsy_dict (req_certificate_data req)) eqn:E.
  { left. eexists. now apply Verify_missing. }
  destruct req as [[cid|] [d|]];
    cbn [req_certificate_id req_certificate_data falsy_id falsy_dict] in E;
    rewrite ?orb_true_r in E; try discriminate.
  destruct (has_fields d) eqn:Hd.
  - assert (cid <> "") as Hcid by (intros ->; discriminate).
    change {| req_certificate_id := Some cid; req_certificate_data := Some d |}
      with (verify_of cid d).
    rewrite (Verify_complete cid d t Hcid Hd).
    destruct (first_by_certificate_id cid t) as [r|] eqn:L;
      [right; right; exists cid, d, r | right; left; exists cid];
      (split; [first [assumption | reflexivity] | reflexivity]).
  - left. now apply Verify_incomplete.
Qed.

Lemma Verify_table req t : table (snd (Verify req t)) = t.
Proof.
  destruct (Verify_cases req t) as [[msg ->] | [(cid & _ & ->) | (cid & d & r & _ & ->)]];
    reflexivity.
Qed.

(** *** Runs *)

Lemma step_extends t o : exists more, step t o = t ++ more.
Proof.
  destruct o as [rnd now data | req].
  - rewrite step_issue.
    destruct (has_fields data && negb (has_certificate_id (Uuid.str (Uuid.uuid4 rnd)) t)).
    + eauto.
    + exists []. now rewrite app_nil_r.
  - exists []. unfold step. now rewrite Verify_table, app_nil_r.
Qed.

Lemma run_ops_extends ops t : exists more, run_ops t ops = t ++ more.
Proof.
  revert t. induction ops as [|o ops IH]; intros t; unfold run_ops; simpl.
  - exists []. now rewrite app_nil_r.
  - destruct (step_extends t o) as [m1 ->].
    destruct (IH (t ++ m1)) as [m2 E]. unfold run_ops in E. rewrite E.
    exists (m1 ++ m2). now rewrite app_assoc.
Qed.

Lemma first_run_ops cid t r ops :
  first_by_certificate_id cid t = Some r -> first_by_certificate_id cid (run_ops t ops) = Some r.
Proof.
  intros H. destruct (run_ops_extends ops t) as [more ->]. now apply first_app_Some.
Qed.

Lemma first_issued rnd now data t cid :
  issued_id (fst (Issue rnd now data t)) = Some cid ->
  first_by_certificate_id cid (table (snd (Issue rnd now data t))) = Some (issued_row rnd now data t).
Proof.
  intros (Hf & Hc & ->)%issued_id_inv. rewrite (Issue_fresh _ _ _ _ Hf Hc). cbn [snd table].
  apply first_app_fresh; [now apply first_None | reflexivity].
Qed.

Lemma uuid_str_nonempty u : Uuid.str u <> "".
Proof. unfold Uuid.str. change 32%nat with (S 31). discriminate. Qed.

Lemma step_ids_NoDup t o :
  NoDup (certificate_id <$> t) -> NoDup (certificate_id <$> step t o).
Proof.
  intros H. destruct o as [rnd now data | req].
  - rewrite step_issue.
    destruct (has_fields data); cbn [andb]; [| exact H].
    destruct (has_certificate_id (Uuid.str (Uuid.uuid4 rnd)) t) eqn:Hc; cbn [negb]; [exact H |].
    rewrite fmap_app. apply NoDup_app. split; [exact H |]. split.
    + intros x Hx [->|Hin]%elem_of_cons; [| inversion Hin].
      apply has_certificate_id_not_elem in Hc. contradiction.
    + apply NoDup_singleton.
  - unfold step. now rewrite Verify_table.
Qed.

Lemma issued_ids_fresh ops t cid :
  cid ∈ issued_ids t ops -> cid ∉ certificate_id <$> t.
Proof.
  revert t. induction ops as [|o ops IH]; intros t; simpl.
  - intros H. inversion H.
  - intros [H|H]%elem_of_app.
    + destruct o as [rnd now data | req]; [| inversion H].
      cbn [reply_of] in H.
      destruct (issued_id (fst (Issue rnd now data t))) as [c|] eqn:E;
        [| inversion H].
      apply list_elem_of_singleton in H. subst c.
      apply issued_id_inv in E as (_ & Hc & ->).
      now apply has_certificate_id_not_elem.
    + apply IH in H. intros Hin. apply H.
      destruct (step_extends t o) as [more ->]. rewrite fmap_app.
      apply elem_of_app. now left.
Qed.

Lemma issued_ids_NoDup ops t : NoDup (issued_ids t ops).
Proof.
  revert t. induction ops as [|o ops IH]; intros t; simpl; [apply NoDup_nil_2 |].
  apply NoDup_app. split; [| split; [| apply IH]].
  - destruct o; [| apply NoDup_nil_2].
    destruct (issued_id _); [apply NoDup_singleton | apply NoDup_nil_2].
  - intros x Hx Hlater. apply issued_ids_fresh in Hlater. apply Hlater.
    destruct o as [rnd now data | req]; [| inversion Hx].
    cbn [reply_of] in Hx.
    destruct (issued_id (fst (Issue rnd now data t))) as [c|] eqn:E; [| inversion Hx].
    apply list_elem_of_singleton in Hx. subst c.
    pose proof (first_issued _ _ _ _ _ E) as L.
    unfold step. apply has_certificate_id_elem.
    destruct (has_certificate_id x (table (snd (Issue rnd now data t)))) eqn:Hh; [reflexivity |].
    apply first_None in Hh. congruence.
Qed.

End Handlers.

Section Runs.

Implicit Types (t : list CertificateHash) (data d : gmap string string)
  (cid : string) (rnd : Z) (now : datetime).

Lemma run_ops_ids_NoDup ops t :
  NoDup (certificate_id <$> t) -> NoDup (certificate_id <$> run_ops t ops).
Proof.
  revert t. induction ops as [|o ops IH]; intros t H; [exact H |].
  apply (IH (step t o)). now apply step_ids_NoDup.
Qed.

(** What Verify answers for an issued identifier, at any later time. *)
Lemma Verify_issued rnd now data t cid ops d :
  issued_id (fst (Issue rnd now data t)) = Some cid ->
  has_fields d = true ->
  fst (Verify (verify_of cid d) (run_ops (table (snd (Issue rnd now data t))) ops))
  = inr (found_reply (issued_row rnd now data t) (generate_certificate_hash d)).
Proof.
  intros H Hd.
  pose proof (first_run_ops _ _ _ ops (first_issued _ _ _ _ _ H)) as L.
  apply issued_id_inv in H as (_ & _ & ->).
  rewrite (Verify_complete _ d _ (uuid_str_nonempty _) Hd), L. reflexivity.
Qed.

Lemma found_reply_match (r : CertificateHash) (h : string) :
  h = data_hash r ->
  let a := inr (found_reply r h) in
  status a = Some 200 /\
  field "authentic" a = Some (JBool true) /\
  field "recorded_hash" a = Some (JStr h) /\
  field "verified_hash" a = Some (JStr h) /\
  field "issued_at" a = Some (JStr (strftime (issued_at r))).
Proof.
  intros ->. unfold found_reply. rewrite String.eqb_refl. repeat split; reflexivity.
Qed.

Lemma found_reply_mismatch (r : CertificateHash) (h : string) :
  h <> data_hash r ->
  let a := inr (found_reply r h) in
  status a = Some 200 /\
  field "authentic" a = Some (JBool false) /\
  field "recorded_hash" a = Some (JStr (data_hash r)) /\
  field "verified_hash" a = Some (JStr h) /\
  field "recorded_hash" a <> field "verified_hash" a /\
  field "issued_at" a = None.
Proof.
  intros Hne. unfold found_reply.
  destruct (String.eqb_spec h (data_hash r)) as [E|_]; [contradiction |].
  repeat split; try reflexivity.
  intros E. apply Hne. cbn [field] in E.
  assert (Some (JStr (data_hash r)) = Some (JStr h)) as [= E'] by exact E.
  now symmetry.
Qed.

End Runs.

(** C2: Verify of an issued identifier with the very document that was issued,
    directly after the Issue or after any further requests, answers
    authentic = true; the stored and the computed fingerprint are both the
    fingerprint Issue returned, and the reply carries the time of issuance. *)
Theorem C2_verify_accepts_issued_document rnd now data t cid ops :
  issued_id (fst (Issue rnd now data t)) = Some cid ->
  let issued := fst (Issue rnd now data t) in
  let r := fst (Verify (verify_of cid data)
                  (run_ops (table (snd (Issue rnd now data t))) ops)) in
  status r = Some 200 /\
  field "authentic" r = Some (JBool true) /\
  field "recorded_hash" r = Some (JStr (generate_certificate_hash data)) /\
  field "verified_hash" r = Some (JStr (generate_certificate_hash data)) /\
  field "recorded_hash" issued = Some (JStr (generate_certificate_hash data)) /\
  field "issued_at" r = Some (JStr (strftime now)).
Proof.
  intros H. cbv zeta.
  pose proof H as (Hf & Hc & _)%issued_id_inv.
  rewrite (Verify_issued _ _ _ _ _ ops data H Hf).
  rewrite (Issue_fresh _ _ _ _ Hf Hc).
  destruct (found_reply_match (issued_row rnd now data t) (generate_certificate_hash data)
              eq_refl) as (Hs & Ha & Hr & Hv & Ht).
  repeat split; assumption || reflexivity.
Qed.

Lemma C2_verify_accepts_issued_document_witness :
  let data := doc "Bob Lee" "Systems Design" "2024-01-10" "Acme" in
  let now := Datetime 2024 1 10 9 5 7 0 in
  let cid := "00000000-0000-4000-8000-000000000000" in
  let r := fst (Verify (verify_of cid data)
                  (run_ops (table (snd (Issue 0 now data []))) [OpIssue 1 now data])) in
  issued_id (fst (Issue 0 now data [])) = Some cid /\
  field "authentic" r = Some (JBool true) /\
  field "issued_at" r = Some (JStr "2024-01-10 09:05:07").
Proof.
  split; [vm_compute; reflexivity |].
  pose proof (C2_verify_accepts_issued_document 0 (Datetime 2024 1 10 9 5 7 0)
                (doc "Bob Lee" "Systems Design" "2024-01-10" "Acme") []
                "00000000-0000-4000-8000-000000000000"
                [OpIssue 1 (Datetime 2024 1 10 9 5 7 0)
                   (doc "Bob Lee" "Systems Design" "2024-01-10" "Acme")]
                ltac:(vm_compute; reflexivity)) as (_ & Ha & _ & _ & _ & Ht).
  split; [exact Ha | exact Ht].
Defined.

(** C3 (as stated, refuted): the candidate differs from the issued document in
    recipient and course by more than white space or letter case, and Verify
    still answers authentic = true, because both have one canonical form. *)
Lemma C3_pipe_collision_is_accepted :
  let d := doc "a|b" "c" "2024-01-10" "Acme" in
  let d' := doc "a" "b|c" "2024-01-10" "Acme" in
  let now := Datetime 2024 1 10 9 5 7 0 in
  let cid := "00000000-0000-4000-8000-000000000000" in
  issued_id (fst (Issue 0 now d [])) = Some cid /\
  has_fields d' = true /\
  d !! "recipient" = Some "a|b" /\ d' !! "recipient" = Some "a" /\
  ~ differ_in_space_or_case "a|b" "a" /\
  field "authentic" (fst (Verify (verify_of cid d') (table (snd (Issue 0 now d [])))))
  = Some (JBool true).
Proof.
  cbv zeta.
  split; [vm_compute; reflexivity |]. split; [vm_compute; reflexivity |].
  split; [vm_compute; reflexivity |]. split; [vm_compute; reflexivity |].
  split; [| vm_compute; reflexivity].
  intros H%normalize_differ_in_space_or_case. vm_compute in H. discriminate.
Qed.

(** C5 (as stated, refuted): the empty identifier is in no store, yet Verify
    answers it with the malformed-input reply (status 400, no authentic
    field) and not with the not-found reply. *)
Lemma C5_empty_identifier_is_malformed :
  let d := doc "Bob Lee" "Systems Design" "2024-01-10" "Acme" in
  let r := fst (Verify (verify_of "" d) []) in
  first_by_certificate_id "" [] = None /\ has_fields d = true /\
  status r = Some 400 /\ field "authentic" r = None.
Proof. vm_compute. repeat split; reflexivity. Qed.

(** C5 (amended): for every non-empty identifier (a string of code points
    U+0000 to U+00FF) that is not in the store and every candidate holding
    the four fields, Verify answers not-found: status 404, authentic = false,
    neither fingerprint. Every other reply of Verify with authentic = false
    has status 200 and carries both fingerprints, so the two are told
    apart. *)
Theorem C5_unknown_identifier cid d t :
  cid <> "" -> first_by_certificate_id cid t = None -> has_fields d = true ->
  let r := fst (Verify (verify_of cid d) t) in
  (status r = Some 404 /\
   field "authentic" r = Some (JBool false) /\
   field "recorded_hash" r = None /\ field "verified_hash" r = None /\
   field "issued_at" r = None) /\
  (forall req' t',
     let r' := fst (Verify req' t') in
     field "authentic" r' = Some (JBool false) -> status r' <> Some 404 ->
     status r' = Some 200 /\
     exists stored computed,
       field "recorded_hash" r' = Some (JStr stored) /\
       field "verified_hash" r' = Some (JStr computed) /\ stored <> computed).
Proof.
  intros Hcid Hl Hd. cbv zeta. split.
  - rewrite (Verify_complete _ _ _ Hcid Hd), Hl. repeat split; reflexivity.
  - intros req' t'.
    destruct (Verify_cases req' t')
      as [[msg ->] | [(c & _ & ->) | (c & d' & r & _ & ->)]]; cbn [fst].
    + discriminate.
    + intros _ Hs. now destruct Hs.
    + unfold found_reply.
      destruct (String.eqb (generate_certificate_hash d') (data_hash r)) eqn:E.
      * discriminate.
      * intros _ _. split; [reflexivity |].
        exists (data_hash r), (generate_certificate_hash d').
        repeat split. apply String.eqb_neq in E. congruence.
Qed.

Lemma C5_unknown_identifier_witness :
  let d := doc "Bob Lee" "Systems Design" "2024-01-10" "Acme" in
  let r := fst (Verify (verify_of "nonexistent-id" d) []) in
  status r = Some 404 /\ field "authentic" r = Some (JBool false) /\
  field "recorded_hash" r = None /\ field "verified_hash" r = None /\
  field "issued_at" r = None.
Proof.
  apply (C5_unknown_identifier "nonexistent-id"
           (doc "Bob Lee" "Systems Design" "2024-01-10" "Acme") []);
    [discriminate | reflexivity | reflexivity].
Defined.

(** C6: once Issue has returned an identifier, the row stored under it keeps
    its identifier, fingerprint, issuer and issuance time through every later
    sequence of Issue and Verify requests, the only two requests there are;
    every row of the table stays where it is, later rows are appended. *)
Theorem C6_records_are_immutable rnd now data t cid ops :
  issued_id (fst (Issue rnd now data t)) = Some cid ->
  let t' := table (snd (Issue rnd now data t)) in
  (exists r,
     first_by_certificate_id cid t' = Some r /\
     certificate_id r = cid /\
     data_hash r = generate_certificate_hash data /\
     data !! "issuer" = Some (issuer_name r) /\
     issued_at r = now /\
     first_by_certificate_id cid (run_ops t' ops) = Some r) /\
  (forall cid' r', first_by_certificate_id cid' t' = Some r' -> first_by_certificate_id cid' (run_ops t' ops) = Some r') /\
  (exists more, run_ops t' ops = t' ++ more).
Proof.
  intros H. cbv zeta. pose proof (first_issued _ _ _ _ _ H) as L.
  pose proof H as (Hf & Hc & ->)%issued_id_inv.
  split; [| split].
  - exists (issued_row rnd now data t).
    split; [exact L |]. split; [reflexivity |]. split; [reflexivity |].
    split; [| split; [reflexivity | now apply first_run_ops]].
    apply has_fields_lookup in Hf as (_ & _ & _ & i & _ & _ & _ & Hi).
    unfold issued_row, dict_get. cbn [issuer_name]. now rewrite Hi.
  - intros cid' r'. apply first_run_ops.
  - apply run_ops_extends.
Qed.

Lemma C6_records_are_immutable_witness :
  let data := doc "Bob Lee" "Systems Design" "2024-01-10" "Acme" in
  let now := Datetime 2024 1 10 9 5 7 0 in
  let cid := "00000000-0000-4000-8000-000000000000" in
  let t' := table (snd (Issue 0 now data [])) in
  let ops := [OpIssue 0 now (doc "Eve" "Systems Design" "2024-01-10" "Acme");
              OpVerify (verify_of cid (doc "Eve" "Systems Design" "2024-01-10" "Acme"));
              OpIssue 7 now data] in
  issued_id (fst (Issue 0 now data [])) = Some cid /\
  exists more, run_ops t' ops = t' ++ more.
Proof.
  split; [vm_compute; reflexivity |].
  apply (C6_records_are_immutable 0 (Datetime 2024 1 10 9 5 7 0)
           (doc "Bob Lee" "Systems Design" "2024-01-10" "Acme") []
           "00000000-0000-4000-8000-000000000000").
  vm_compute; reflexivity.
Defined.

(** C7: in every run of requests over a table without duplicate identifiers,
    the identifiers returned by the successful Issue calls are pairwise
    distinct, whatever the documents (equal ones included), none of them was
    in the table before, and the table never holds one identifier twice. *)
Theorem C7_identifiers_are_unique t ops :
  NoDup (certificate_id <$> t) ->
  NoDup (issued_ids t ops) /\
  (forall cid, cid ∈ issued_ids t ops -> cid ∉ certificate_id <$> t) /\
  NoDup (certificate_id <$> run_ops t ops).
Proof.
  intros H. split; [apply issued_ids_NoDup |]. split.
  - intros cid. apply issued_ids_fresh.
  - now apply run_ops_ids_NoDup.
Qed.

Lemma C7_identifiers_are_unique_witness :
  let data := doc "Bob Lee" "Systems Design" "2024-01-10" "Acme" in
  let now := Datetime 2024 1 10 9 5 7 0 in
  let ops := [OpIssue 1 now data; OpIssue 2 now data; OpIssue 1 now data; OpIssue 3 now data] in
  issued_ids [] ops = [ "00000000-0000-4000-8000-000000000001";
                        "00000000-0000-4000-8000-000000000002";
                        "00000000-0000-4000-8000-000000000003" ] /\
  NoDup (issued_ids [] ops) /\
  NoDup (certificate_id <$> run_ops [] ops).
Proof.
  split; [vm_compute; reflexivity |].
  pose proof (C7_identifiers_are_unique []
                [OpIssue 1 (Datetime 2024 1 10 9 5 7 0)
                   (doc "Bob Lee" "Systems Design" "2024-01-10" "Acme");
                 OpIssue 2 (Datetime 2024 1 10 9 5 7 0)
                   (doc "Bob Lee" "Systems Design" "2024-01-10" "Acme");
                 OpIssue 1 (Datetime 2024 1 10 9 5 7 0)
                   (doc "Bob Lee" "Systems Design" "2024-01-10" "Acme");
                 OpIssue 3 (Datetime 2024 1 10 9 5 7 0)
                   (doc "Bob Lee" "Systems Design" "2024-01-10" "Acme")]
                (NoDup_nil_2 : NoDup (certificate_id <$> []))) as (H1 & _ & H3).
  split; [exact H1 | exact H3].
Defined.

(** C8: a document that lacks one of the four fields is answered by Issue and
    by Verify with the malformed-input reply (status 400, a message, no
    authentic field, no identifier, no fingerprint); no database call is
    made, so no first_by_certificate_id and no insertion, and the table is as before. *)
Theorem C8_validation_comes_first d :
  has_fields d = false ->
  (forall rnd now t,
     let out := Issue rnd now d t in
     status (fst out) = Some 400 /\
     field "authentic" (fst out) = None /\
     field "certificate_id" (fst out) = None /\
     field "recorded_hash" (fst out) = None /\
     trace (snd out) = [] /\ pending (snd out) = [] /\ table (snd out) = t) /\
  (forall o t,
     let out := Verify {| req_certificate_id := o; req_certificate_data := Some d |} t in
     status (fst out) = Some 400 /\
     field "authentic" (fst out) = None /\
     field "recorded_hash" (fst out) = None /\
     field "verified_hash" (fst out) = None /\
     trace (snd out) = [] /\ pending (snd out) = [] /\ table (snd out) = t).
Proof.
  intros H. split.
  - intros rnd now t. cbv zeta. rewrite (Issue_missing _ _ _ _ H). repeat split; reflexivity.
  - intros o t. cbv zeta. destruct (Verify_incomplete o d t H) as [msg ->].
    repeat split; reflexivity.
Qed.

Lemma C8_validation_comes_first_witness :
  let d : gmap string string := {[ "recipient" := "Bob Lee"; "course" := "Systems Design" ]} in
  let now := Datetime 2024 1 10 9 5 7 0 in
  has_fields d = false /\
  status (fst (Issue 0 now d [])) = Some 400 /\
  trace (snd (Verify (verify_of "00000000-0000-4000-8000-000000000000" d) [])) = [].
Proof.
  cbv zeta.
  assert (has_fields ({[ "recipient" := "Bob Lee"; "course" := "Systems Design" ]}
                        : gmap string string) = false) as H by reflexivity.
  split; [exact H |].
  pose proof (C8_validation_comes_first _ H) as [Hi Hv].
  split.
  - exact (proj1 (Hi 0 (Datetime 2024 1 10 9 5 7 0) [])).
  - exact (proj1 (proj2 (proj2 (proj2 (proj2
             (Hv (Some "00000000-0000-4000-8000-000000000000") [])))))).
Defined.

(** C10: Verify does not write. For every request and every table, the table
    after the call is the table before it, nothing is left pending, and the
    only database call that can occur is the first_by_certificate_id. *)
Theorem C10_verify_is_read_only req t :
  table (snd (Verify req t)) = t /\
  pending (snd (Verify req t)) = [] /\
  forallb is_query (trace (snd (Verify req t))) = true /\
  step t (OpVerify req) = t.
Proof.
  unfold step.
  destruct (Verify_cases req t) as [[msg ->] | [(cid & _ & ->) | (cid & d & r & _ & ->)]];
    repeat split; reflexivity.
Qed.

(** * Further properties of the handlers *)

Section MoreHandlers.

Implicit Types (t : list CertificateHash) (data d : gmap string string)
  (cid : string) (rnd : Z) (now : datetime).

Lemma Issue_eq rnd now data t :
  Issue rnd now data t =
    if has_fields data then
      if fresh rnd t then
        (inr (issued_reply rnd data),
         {| table := t ++ [issued_row rnd now data t]; pending := [];
            trace := [EvAdd (issued_new_row rnd data); EvCommit] |})
      else
        (inr (message_reply
                ("An error occurred during issuance: " +:+
                 exn_str (IntegrityError
                            "UNIQUE constraint failed: certificate_hash.certificate_id"))
                500),
         {| table := t; pending := [];
            trace := [EvAdd (issued_new_row rnd data); EvCommit; EvRollback] |})
    else
      (inr (message_reply "Missing required fields: recipient, course, date, issuer" 400),
       open_session t).
Proof.
  unfold fresh. destruct (has_fields data) eqn:Hf.
  - destruct (has_certificate_id (Uuid.str (Uuid.uuid4 rnd)) t) eqn:Hc; cbn [negb].
    + now apply Issue_collision.
    + now apply Issue_fresh.
  - now apply Issue_missing.
Qed.

Lemma issued_id_eq rnd now data t :
  issued_id (fst (Issue rnd now data t)) =
    if has_fields data && fresh rnd t then Some (Uuid.str (Uuid.uuid4 rnd)) else None.
Proof.
  rewrite Issue_eq. destruct (has_fields data), (fresh rnd t); reflexivity.
Qed.

Lemma Verify_incomplete_msg req d t :
  falsy_request req = false ->
  req_certificate_data req = Some d ->
  has_fields d = false ->
  Verify req t =
    (inr (message_reply "Certificate data provided is incomplete." 400), open_session t).
Proof.
  unfold falsy_request. intros Hfalsy Hd Hf.
  destruct req as [[cid|] o]; cbn [req_certificate_data] in Hd; subst o;
    [| discriminate].
  unfold Verify, VerifyCertificate_post, try_except. rewrite Hfalsy.
  cbn [req_certificate_id req_certificate_data].
  fold (has_fields d). rewrite Hf. reflexivity.
Qed.

(** The three ways a request can be shaped. *)
Lemma request_cases req :
  falsy_request req = true \/
  (exists d, falsy_request req = false /\ req_certificate_data req = Some d /\
             has_fields d = false) \/
  (exists cid d, req = verify_of cid d /\ cid <> "" /\ has_fields d = true).
Proof.
  destruct (falsy_request req) eqn:E; [now left | right].
  unfold falsy_request in E.
  destruct req as [[cid|] [d|]];
    cbn [req_certificate_id req_certificate_data falsy_id falsy_dict] in E;
    rewrite ?orb_true_r in E; try discriminate.
  destruct (has_fields d) eqn:Hd.
  - right. exists cid, d. repeat split; [| exact Hd]. intros ->. discriminate.
  - left. exists d. repeat split; assumption.
Qed.

Lemma falsy_request_complete cid d :
  cid <> "" -> has_fields d = true -> falsy_request (verify_of cid d) = false.
Proof.
  intros Hcid Hd. unfold falsy_request, verify_of.
  cbn [req_certificate_id req_certificate_data falsy_id falsy_dict].
  apply orb_false_iff. split.
  - destruct cid; [congruence | reflexivity].
  - apply bool_decide_eq_false. now apply has_fields_nonempty.
Qed.

Lemma next_id_bound t r : r ∈ t -> id r < next_id t.
Proof.
  unfold next_id. induction t as [|x t IH]; [intros H; inversion H |].
  intros [->|Hin]%elem_of_cons; simpl; [lia |].
  specialize (IH Hin). lia.
Qed.

Lemma next_id_pos t : 0 < next_id t.
Proof.
  unfold next_id. induction t as [|x t IH]; simpl; lia.
Qed.

Lemma append_inj_r (a b z : string) : a +:+ z = b +:+ z -> a = b.
Proof.
  intros H.
  assert (forall s, String.length (s +:+ z) = (String.length s + String.length z)%nat) as L.
  { induction s as [|c s IH]; [reflexivity |]. rewrite append_cons. simpl. now rewrite IH. }
  revert b H. induction a as [|c a IH]; intros [|e b] H.
  - reflexivity.
  - apply (f_equal String.length) in H. rewrite !L in H. simpl in H. lia.
  - apply (f_equal String.length) in H. rewrite !L in H. simpl in H. lia.
  - rewrite !append_cons in H. injection H as -> H. now rewrite (IH b H).
Qed.

End MoreHandlers.


(** X2: the database calls of Issue. It never queries the ledger; a 201
    reply comes after exactly one add and one commit; rollback is called only
    on the way to a 500 reply, and then the table is as it was. *)
Theorem Issue_database_calls rnd now data t :
  let out := Issue rnd now data t in
  (status (fst out) = Some 201 ->
   trace (snd out) = [EvAdd (issued_new_row rnd data); EvCommit]) /\
  (EvRollback ∈ trace (snd out) ->
   status (fst out) = Some 500 /\ table (snd out) = t) /\
  (forall cid, EvQuery cid ∉ trace (snd out)).
Proof.
  cbv zeta. rewrite Issue_eq.
  destruct (has_fields data), (fresh rnd t);
    cbn [fst snd status message_reply issued_reply table trace open_session];
    (split; [first [intros _; reflexivity | intros H; discriminate H] |]);
    (split; [| intros cid H]);
    try (intros H);
    try (split; reflexivity);
    repeat (apply elem_of_cons in H as [H|H]; [discriminate H |]);
    inversion H.
Qed.

(** X3: Verify never accepts by mistake. A reply with authentic = true comes
    only for a request that names a stored identifier and carries the four
    fields, with a fingerprint equal to the stored one; the reply then has
    status 200, both fingerprints equal to the stored one, and the stored
    time of issuance. *)
Theorem Verify_verdict req t :
  field "authentic" (fst (Verify req t)) = Some (JBool true) ->
  exists cid d row,
    req = verify_of cid d /\ cid <> "" /\ has_fields d = true /\
    first_by_certificate_id cid t = Some row /\
    generate_certificate_hash d = data_hash row /\
    status (fst (Verify req t)) = Some 200 /\
    field "recorded_hash" (fst (Verify req t)) = Some (JStr (data_hash row)) /\
    field "verified_hash" (fst (Verify req t)) = Some (JStr (data_hash row)) /\
    field "issued_at" (fst (Verify req t)) = Some (JStr (strftime (issued_at row))).
Proof.
  destruct (request_cases req) as [E | [(d & E & Hd & Hf) | (cid & d & -> & Hcid & Hf)]].
  - rewrite (Verify_missing req t E). discriminate.
  - rewrite (Verify_incomplete_msg req d t E Hd Hf). discriminate.
  - rewrite (Verify_complete cid d t Hcid Hf). cbn [fst].
    destruct (first_by_certificate_id cid t) as [row|] eqn:L; [| discriminate].
    destruct (String.eqb_spec (generate_certificate_hash d) (data_hash row)) as [Eh|Nh].
    + intros _. exists cid, d, row.
      destruct (found_reply_match row (generate_certificate_hash d) Eh)
        as (Hs & _ & Hr & Hv & Ht).
      rewrite <- Eh. repeat split; assumption.
    + intros H. exfalso.
      destruct (found_reply_mismatch row (generate_certificate_hash d) Nh)
        as (_ & Ha & _). cbv zeta in Ha. rewrite Ha in H. discriminate.
Qed.

Lemma Verify_verdict_witness :
  let d := doc "Bob Lee" "Systems Design" "2024-01-10" "Acme" in
  let now := Datetime 2024 1 10 9 5 7 0 in
  let t := table (snd (Issue 0 now d [])) in
  let req := verify_of "00000000-0000-4000-8000-000000000000" (doc "bob lee" "systems design" "2024-01-10" "acme") in
  field "authentic" (fst (Verify req t)) = Some (JBool true) /\
  exists cid d' row,
    req = verify_of cid d' /\ first_by_certificate_id cid t = Some row /\
    generate_certificate_hash d' = data_hash row.
Proof.
  cbv zeta.
  assert (field "authentic"
            (fst (Verify (verify_of "00000000-0000-4000-8000-000000000000"
                            (doc "bob lee" "systems design" "2024-01-10" "acme"))
                    (table (snd (Issue 0 (Datetime 2024 1 10 9 5 7 0)
                                   (doc "Bob Lee" "Systems Design" "2024-01-10" "Acme") [])))))
          = Some (JBool true)) as H by (vm_compute; reflexivity).
  split; [exact H |].
  destruct (Verify_verdict _ _ H) as (cid & d' & row & Hreq & _ & _ & L & Eh & _).
  exists cid, d', row. repeat split; assumption.
Defined.

Section MoreRuns.

Implicit Types (t : list CertificateHash) (data d : gmap string string)
  (cid : string) (rnd : Z) (now : datetime).

Lemma data_string_agree d1 d2 :
  (forall k, k ∈ required_fields -> d1 !! k = d2 !! k) ->
  data_string d1 = data_string d2.
Proof.
  intros H. unfold data_string, dict_get, required_fields in *.
  rewrite <- (H "recipient"), <- (H "course"), <- (H "date"), <- (H "issuer");
    [reflexivity | | | |]; repeat (constructor; try done).
Qed.

Lemma step_ids t o :
  certificate_id <$> step t o =
    (certificate_id <$> t) ++
    match o with
    | OpIssue _ _ _ => option_list (issued_id (reply_of o t))
    | OpVerify _ => []
    end.
Proof.
  destruct o as [rnd now data | req].
  - rewrite step_issue. cbn [reply_of]. rewrite issued_id_eq. unfold fresh.
    destruct (has_fields data && negb (has_certificate_id (Uuid.str (Uuid.uuid4 rnd)) t)).
    + rewrite fmap_app. reflexivity.
    + cbn [option_list]. now rewrite app_nil_r.
  - unfold step. rewrite Verify_table. now rewrite app_nil_r.
Qed.

Lemma step_keys t o :
  NoDup (id <$> t) -> Forall (fun r => 0 < id r) t ->
  NoDup (id <$> step t o) /\ Forall (fun r => 0 < id r) (step t o).
Proof.
  intros Hn Hp. destruct o as [rnd now data | req].
  - rewrite step_issue.
    destruct (has_fields data && negb (has_certificate_id (Uuid.str (Uuid.uuid4 rnd)) t));
      [| now split].
    split.
    + rewrite fmap_app. apply NoDup_app. split; [exact Hn |]. split; [| apply NoDup_singleton].
      intros x Hx [->|Hin]%elem_of_cons; [| inversion Hin].
      apply list_elem_of_fmap in Hx as (r & Hr & Hin).
      pose proof (next_id_bound t r Hin) as Hlt. cbn [id issued_row] in Hr. lia.
    + apply Forall_app. split; [exact Hp |]. constructor; [| constructor].
      cbn [id issued_row]. apply next_id_pos.
  - unfold step. rewrite Verify_table. now split.
Qed.

End MoreRuns.

(** X4: an answer of Verify other than not-found is final: the same request
    gets the same reply after any further Issue and Verify requests. *)
Theorem Verify_reply_is_stable req t ops :
  status (fst (Verify req t)) <> Some 404 ->
  fst (Verify req (run_ops t ops)) = fst (Verify req t).
Proof.
  destruct (request_cases req) as [E | [(d & E & Hd & Hf) | (cid & d & -> & Hcid & Hf)]].
  - intros _. now rewrite !(Verify_missing req _ E).
  - intros _. now rewrite !(Verify_incomplete_msg req d _ E Hd Hf).
  - rewrite !(Verify_complete cid d _ Hcid Hf). cbn [fst].
    destruct (first_by_certificate_id cid t) as [row|] eqn:L.
    + intros _. now rewrite (first_run_ops cid t row ops L).
    + intros H. now destruct H.
Qed.

Lemma Verify_reply_is_stable_witness :
  let data := doc "Bob Lee" "Systems Design" "2024-01-10" "Acme" in
  let now := Datetime 2024 1 10 9 5 7 0 in
  let t := table (snd (Issue 0 now data [])) in
  let req := verify_of "00000000-0000-4000-8000-000000000000"
               (doc "Bob Lee" "Systems Design 2" "2024-01-10" "Acme") in
  status (fst (Verify req t)) = Some 200 /\
  fst (Verify req (run_ops t [OpIssue 1 now data; OpIssue 0 now data]))
  = fst (Verify req t).
Proof.
  split; [vm_compute; reflexivity |].
  apply Verify_reply_is_stable. vm_compute. discriminate.
Defined.

(** X5: the two malformed-input messages of Verify. A request without an
    identifier or without a document (absent or empty) gets the "Missing"
    message, whatever else is wrong with it; the "incomplete" message is for
    a request that has both and lacks one of the four fields. *)
Theorem Verify_malformed_messages req t :
  let r := fst (Verify req t) in
  (field "message" r = Some (JStr "Missing certificate_id or certificate_data.")
   <-> falsy_request req = true) /\
  (field "message" r = Some (JStr "Certificate data provided is incomplete.")
   <-> falsy_request req = false /\
       exists d, req_certificate_data req = Some d /\ has_fields d = false) /\
  (status r = Some 400 <->
   falsy_request req = true \/
   exists d, req_certificate_data req = Some d /\ has_fields d = false).
Proof.
  cbv zeta.
  destruct (request_cases req) as [E | [(d & E & Hd & Hf) | (cid & d & -> & Hcid & Hf)]].
  - rewrite (Verify_missing req t E). cbn [fst]. rewrite E.
    split; [split; reflexivity || trivial |].
    split; [split; [discriminate | intros [? _]; discriminate] |].
    split; [now left | reflexivity].
  - rewrite (Verify_incomplete_msg req d t E Hd Hf). cbn [fst]. rewrite E.
    split; [split; discriminate |].
    split; [split; [eauto | reflexivity] |].
    split; [eauto | reflexivity].
  - rewrite (Verify_complete cid d t Hcid Hf). cbn [fst].
    rewrite (falsy_request_complete cid d Hcid Hf).
    assert (forall P : Prop,
              (exists d', req_certificate_data (verify_of cid d) = Some d' /\
                          has_fields d' = false) -> P) as Hno.
    { intros P (d' & [= <-] & Hd'). congruence. }
    destruct (first_by_certificate_id cid t) as [row|]; [unfold found_reply;
      destruct (String.eqb (generate_certificate_hash d) (data_hash row)) |];
      (split; [split; discriminate |]);
      (split; [split; [discriminate | intros [_ H]; now apply Hno] |]);
      (split; [discriminate | intros [H|H]; [discriminate | now apply Hno]]).
Qed.

Section Variants.

Lemma normalized_has_fields d vs :
  Reference.normalized d required_fields = Some vs -> has_fields d = true.
Proof.
  unfold has_fields, dict_contains, required_fields. cbn [Reference.normalized forallb].
  destruct (d !! "recipient"), (d !! "course"), (d !! "date"), (d !! "issuer");
    try discriminate. reflexivity.
Qed.

Lemma normalized_canonical_bytes d1 d2 :
  has_fields d1 = true ->
  Reference.normalized d2 required_fields = Reference.normalized d1 required_fields ->
  has_fields d2 = true /\ canonical_bytes d2 = canonical_bytes d1.
Proof.
  intros H1 E.
  destruct (canonical_bytes_by_field d1 H1) as [C1 _].
  assert (has_fields d2 = true) as H2.
  { unfold Reference.canonicalize_by_field in C1.
    destruct (Reference.normalized d1 required_fields) as [vs|] eqn:N; [| discriminate].
    now apply (normalized_has_fields d2 vs). }
  split; [exact H2 |].
  destruct (canonical_bytes_by_field d2 H2) as [C2 _].
  unfold Reference.canonicalize_by_field in C1, C2. rewrite E in C2.
  rewrite C1 in C2. now injection C2.
Qed.

End Variants.

(** X6: Verify accepts every candidate whose four fields have the normal
    forms of the issued document's fields (each value stripped of surrounding
    white space; recipient, course and issuer lower-cased as well), directly
    or after any further requests; the fingerprint it computes is the one
    Issue returned. *)
Theorem Verify_accepts_variants rnd now data t cid ops data' :
  issued_id (fst (Issue rnd now data t)) = Some cid ->
  Reference.normalized data' required_fields = Reference.normalized data required_fields ->
  let r := fst (Verify (verify_of cid data')
                  (run_ops (table (snd (Issue rnd now data t))) ops)) in
  field "authentic" r = Some (JBool true) /\
  field "verified_hash" r = field "recorded_hash" (fst (Issue rnd now data t)).
Proof.
  intros H E. cbv zeta.
  pose proof H as (Hf & Hc & _)%issued_id_inv.
  destruct (normalized_canonical_bytes data data' Hf E) as [Hf' Eb].
  rewrite (Verify_issued _ _ _ _ _ ops data' H Hf').
  rewrite (Issue_fresh _ _ _ _ Hf Hc).
  assert (generate_certificate_hash data' = generate_certificate_hash data) as Eh.
  { change (Sha256.hexdigest (canonical_bytes data') = Sha256.hexdigest (canonical_bytes data)).
    now rewrite Eb. }
  rewrite Eh.
  destruct (found_reply_match (issued_row rnd now data t) (generate_certificate_hash data)
              eq_refl) as (_ & Ha & _ & Hv & _).
  split; [exact Ha | exact Hv].
Qed.

Lemma Verify_accepts_variants_witness :
  let data := doc "Bob Lee" "Systems Design" "2024-01-10" "Acme" in
  let data' := doc " bob lee" "Systems Design" "2024-01-10 " "ACME" in
  let now := Datetime 2024 1 10 9 5 7 0 in
  let cid := "00000000-0000-4000-8000-000000000000" in
  let r := fst (Verify (verify_of cid data') (run_ops (table (snd (Issue 0 now data []))) [])) in
  Reference.normalized data' required_fields = Reference.normalized data required_fields /\
  field "authentic" r = Some (JBool true) /\
  field "verified_hash" r = field "recorded_hash" (fst (Issue 0 now data [])).
Proof.
  split; [vm_compute; reflexivity |].
  apply (Verify_accepts_variants 0 (Datetime 2024 1 10 9 5 7 0)
           (doc "Bob Lee" "Systems Design" "2024-01-10" "Acme") []
           "00000000-0000-4000-8000-000000000000" []
           (doc " bob lee" "Systems Design" "2024-01-10 " "ACME")).
  - vm_compute; reflexivity.
  - vm_compute; reflexivity.
Defined.

(** X7: the fingerprint reads the four required fields only: two documents
    that agree on them have the same fingerprint, whatever other keys they
    hold, so Verify cannot tell them apart. *)
Theorem hash_reads_required_fields_only d1 d2 :
  (forall k, k ∈ required_fields -> d1 !! k = d2 !! k) ->
  canonical_bytes d1 = canonical_bytes d2 /\
  generate_certificate_hash d1 = generate_certificate_hash d2.
Proof.
  intros H. unfold generate_certificate_hash, canonical_bytes.
  rewrite (data_string_agree d1 d2 H). split; reflexivity.
Qed.

Lemma hash_reads_required_fields_only_witness :
  let d1 := doc "Bob Lee" "Systems Design" "2024-01-10" "Acme" in
  let d2 : gmap string string := <[ "grade" := "A+" ]> d1 in
  d1 <> d2 /\ generate_certificate_hash d1 = generate_certificate_hash d2.
Proof.
  cbv zeta. split.
  - intros E. apply (f_equal (fun m : gmap string string => m !! "grade")) in E.
    vm_compute in E. discriminate.
  - apply hash_reads_required_fields_only.
    intros k Hk. unfold required_fields in Hk.
    rewrite lookup_insert_ne; [reflexivity |].
    intros <-. repeat (apply elem_of_cons in Hk as [Hk|Hk]; [discriminate |]).
    inversion Hk.
Defined.

(** X8: a field that is absent is hashed as the empty string, because the
    fields are read with [data.get(k, '')]: adding an empty value under an
    absent key does not change the fingerprint. *)
Theorem missing_field_hashes_as_empty d k :
  d !! k = None ->
  canonical_bytes (<[k := ""]> d) = canonical_bytes d /\
  generate_certificate_hash (<[k := ""]> d) = generate_certificate_hash d.
Proof.
  intros H.
  assert (data_string (<[k := ""]> d) = data_string d) as E.
  { unfold data_string, dict_get. rewrite !lookup_insert.
    repeat case_decide; simplify_eq; rewrite ?H; reflexivity. }
  unfold generate_certificate_hash, canonical_bytes. rewrite E. split; reflexivity.
Qed.

Lemma missing_field_hashes_as_empty_witness :
  let d : gmap string string :=
    {[ "recipient" := "Bob Lee"; "course" := "Systems Design"; "issuer" := "Acme" ]} in
  d !! "date" = None /\
  generate_certificate_hash (<[ "date" := "" ]> d) = generate_certificate_hash d.
Proof.
  cbv zeta.
  assert (({[ "recipient" := "Bob Lee"; "course" := "Systems Design"; "issuer" := "Acme" ]}
             : gmap string string) !! "date" = None) as H by reflexivity.
  split; [exact H |].
  exact (proj2 (missing_field_hashes_as_empty _ "date" H)).
Defined.

(** X9: the identifiers in the table are those it started with followed by
    the identifiers returned by the successful Issue calls, in order: one row
    per successful Issue and none otherwise. *)
Theorem ledger_identifiers t ops :
  certificate_id <$> run_ops t ops = (certificate_id <$> t) ++ issued_ids t ops /\
  length (run_ops t ops) = (length t + length (issued_ids t ops))%nat.
Proof.
  assert (certificate_id <$> run_ops t ops = (certificate_id <$> t) ++ issued_ids t ops) as E.
  { revert t. induction ops as [|o ops IH]; intros t.
    - cbn. now rewrite app_nil_r.
    - change (run_ops t (o :: ops)) with (run_ops (step t o) ops).
      rewrite IH, step_ids. cbn [issued_ids]. now rewrite app_assoc. }
  split; [exact E |].
  apply (f_equal length) in E. now rewrite length_app, !length_fmap in E.
Qed.

Section Keys.

Lemma max_id_nonneg (l : list Z) : 0 <= List.fold_right Z.max 0 l.
Proof. induction l as [|a l IH]; simpl; lia. Qed.

Lemma max_id_app (l : list Z) a :
  List.fold_right Z.max 0 (l ++ [a]) = Z.max (List.fold_right Z.max 0 l) a.
Proof.
  induction l as [|b l IH]; simpl.
  - lia.
  - rewrite IH. lia.
Qed.

Lemma next_id_step t o : next_id t <= next_id (step t o) <= next_id t + 1.
Proof.
  destruct o as [rnd now data | req].
  - rewrite step_issue.
    destruct (has_fields data && negb (has_certificate_id (Uuid.str (Uuid.uuid4 rnd)) t));
      [| lia].
    unfold next_id. rewrite map_app. cbn [List.map]. rewrite max_id_app. cbn [id issued_row].
    pose proof (max_id_nonneg (List.map id t)). unfold next_id. lia.
  - unfold step. rewrite Verify_table. lia.
Qed.

Lemma next_id_run_ops ops t : next_id (run_ops t ops) <= next_id t + Z.of_nat (length ops).
Proof.
  revert t. induction ops as [|o ops IH]; intros t.
  - cbn. lia.
  - change (run_ops t (o :: ops)) with (run_ops (step t o) ops).
    pose proof (IH (step t o)). pose proof (next_id_step t o).
    cbn [length]. lia.
Qed.

Lemma run_ops_keys ops t :
  NoDup (id <$> t) -> Forall (fun r => 0 < id r) t ->
  NoDup (id <$> run_ops t ops) /\ Forall (fun r => 0 < id r) (run_ops t ops).
Proof.
  revert t. induction ops as [|o ops IH]; intros t Hn Hp; [now split |].
  destruct (step_keys t o Hn Hp) as [Hn' Hp']. exact (IH (step t o) Hn' Hp').
Qed.

End Keys.

(** X10: the primary keys. Over a table whose row ids are positive and
    pairwise distinct, and with room below the largest 64-bit row id for one
    new id per request, every run of requests keeps the ids positive, within
    64 bits and pairwise distinct; the row of a first Issue gets an id above
    all those present. *)
Theorem primary_keys_stay_unique t ops :
  NoDup (id <$> t) -> Forall (fun r => 0 < id r) t ->
  next_id t + Z.of_nat (length ops) <= max_rowid + 1 ->
  NoDup (id <$> run_ops t ops) /\
  Forall (fun r => 0 < id r <= max_rowid) (run_ops t ops) /\
  (ops <> [] ->
   forall rnd now data r,
     r ∈ t -> id r < id (issued_row rnd now data t) <= max_rowid).
Proof.
  intros Hn Hp Hroom.
  destruct (run_ops_keys ops t Hn Hp) as [Hn' Hp']. split; [exact Hn' |]. split.
  - apply Forall_forall. intros r Hr.
    split; [exact (proj1 (Forall_forall _ _) Hp' r Hr) |].
    pose proof (next_id_bound _ r Hr). pose proof (next_id_run_ops ops t). lia.
  - intros Hops rnd now data r Hr. cbn [id issued_row].
    split; [now apply next_id_bound |].
    destruct ops; [congruence |]. cbn [length] in Hroom. lia.
Qed.

Lemma primary_keys_stay_unique_witness :
  let data := doc "Bob Lee" "Systems Design" "2024-01-10" "Acme" in
  let now := Datetime 2024 1 10 9 5 7 0 in
  let ops := [OpIssue 1 now data; OpIssue 1 now data; OpIssue 2 now data] in
  id <$> run_ops [] ops = [1; 2] /\ NoDup (id <$> run_ops [] ops).
Proof.
  split; [vm_compute; reflexivity |].
  apply (primary_keys_stay_unique []);
    [apply NoDup_nil_2 | apply Forall_nil_2 | vm_compute; discriminate].
Defined.

(** X11: [__repr__] tells the rows of the table apart: over a table without
    duplicate identifiers no two rows print alike. *)
Theorem repr_tells_rows_apart t :
  NoDup (certificate_id <$> t) -> NoDup (CertificateHash_repr <$> t).
Proof.
  intros H.
  change (CertificateHash_repr <$> t)
    with (((fun c => "<Cert " +:+ c +:+ ">") ∘ certificate_id) <$> t).
  rewrite (list_fmap_compose certificate_id (fun c => "<Cert " +:+ c +:+ ">") t).
  apply NoDup_fmap_2; [| exact H].
  intros a b E. injection E as E. change (a +:+ ">" = b +:+ ">") in E.
  now apply append_inj_r in E.
Qed.

Lemma repr_tells_rows_apart_witness :
  let data := doc "Bob Lee" "Systems Design" "2024-01-10" "Acme" in
  let now := Datetime 2024 1 10 9 5 7 0 in
  let t := run_ops [] [OpIssue 1 now data; OpIssue 2 now data] in
  CertificateHash_repr <$> t = [ "<Cert 00000000-0000-4000-8000-000000000001>";
                                 "<Cert 00000000-0000-4000-8000-000000000002>" ] /\
  NoDup (CertificateHash_repr <$> t).
Proof.
  split; [vm_compute; reflexivity |].
  apply repr_tells_rows_apart. vm_compute.
  repeat constructor; intros H; repeat (apply elem_of_cons in H as [H|H]; [discriminate |]);
    inversion H.
Defined.

(** * Further properties of the text functions *)

Section Text.

Lemma append_length (a b : string) :
  String.length (a +:+ b) = (String.length a + String.length b)%nat.
Proof.
  induction a as [|c a IH]; [reflexivity |]. rewrite append_cons. simpl. now rewrite IH.
Qed.

Lemma all_chars_append p (a b : string) :
  all_chars p (a +:+ b) = all_chars p a && all_chars p b.
Proof.
  induction a as [|c a IH]; [reflexivity |].
  rewrite append_cons. simpl. now rewrite IH, andb_assoc.
Qed.

Lemma concat_empty_cons (x : string) (l : list string) :
  String.concat "" (x :: l) = x +:+ String.concat "" l.
Proof.
  destruct l as [|y l]; [now rewrite append_nil_r | reflexivity].
Qed.

Lemma land_15_range x : 0 <= Z.land x 0xf < 16.
Proof.
  change 0xf with (Z.ones 4). rewrite Z.land_ones by lia.
  apply Z.mod_pos_bound. reflexivity.
Qed.

Lemma hex_digit_lower n : 0 <= n < 16 -> is_lower_hex (Sha256.hex_digit n) = true.
Proof.
  intros H. rewrite <- (Z2Nat.id n) by lia.
  assert (Z.to_nat n < 16)%nat as Hk by lia.
  revert Hk. generalize (Z.to_nat n). intros k Hk.
  do 16 (destruct k as [|k]; [reflexivity |]). lia.
Qed.

Lemma hex_fixed_length w n : String.length (Sha256.hex_fixed w n) = w.
Proof. induction w as [|w IH]; simpl; [reflexivity | now rewrite IH]. Qed.

Lemma hex_fixed_lower w n : all_chars is_lower_hex (Sha256.hex_fixed w n) = true.
Proof.
  induction w as [|w IH]; [reflexivity |].
  cbn [Sha256.hex_fixed all_chars]. rewrite IH, andb_true_r.
  apply hex_digit_lower, land_15_range.
Qed.

Lemma hexdigest_format b :
  String.length (Sha256.hexdigest b) = 64%nat /\
  all_chars is_lower_hex (Sha256.hexdigest b) = true.
Proof.
  unfold Sha256.hexdigest, Sha256.digest_words. cbv zeta.
  generalize (Sha256.blocks
                (length (Sha256.words (Sha256.pad (List.map (fun x => Z.of_N (Byte.to_N x)) b))))
                (Sha256.words (Sha256.pad (List.map (fun x => Z.of_N (Byte.to_N x)) b)))
                Sha256.H_init).
  intros h. cbn [List.map]. rewrite !concat_empty_cons. split.
  - rewrite !append_length, !hex_fixed_length. reflexivity.
  - rewrite !all_chars_append, !hex_fixed_lower. reflexivity.
Qed.

(** Bits of the version-4 identifier. *)
Lemma uuid4_testbit rnd n :
  Z.testbit (Uuid.uuid4 rnd) n =
    ((Z.testbit rnd n && Z.testbit (Z.ones 128) n
      && Z.testbit (Z.lnot (Z.shiftl 0xc000 48)) n
      || Z.testbit (Z.shiftl 0x8000 48) n)
     && Z.testbit (Z.lnot (Z.shiftl 0xf000 64)) n)
    || Z.testbit (Z.shiftl 4 76) n.
Proof.
  unfold Uuid.uuid4. cbv zeta.
  repeat (rewrite Z.lor_spec || rewrite Z.land_spec). reflexivity.
Qed.

Lemma nibble_from_bits y v :
  0 <= v < 16 ->
  (forall i, 0 <= i < 4 -> Z.testbit y i = Z.testbit v i) ->
  Z.land y 0xf = v.
Proof.
  intros Hv H. apply Z.bits_inj'. intros n Hn. rewrite Z.land_spec.
  destruct (Z.ltb_spec n 4) as [Hlt|Hge].
  - rewrite (H n) by lia.
    assert (n = 0 \/ n = 1 \/ n = 2 \/ n = 3) as [-> | [-> | [-> | ->]]] by lia;
      now rewrite andb_true_r.
  - rewrite (Z.bits_above_log2 0xf n) by (try reflexivity; cbn; lia).
    rewrite andb_false_r. symmetry.
    destruct (Z.eq_dec v 0) as [-> | Hnz]; [apply Z.bits_0 |].
    apply Z.bits_above_log2; [lia |].
    assert (Z.log2 v < 4) by (apply Z.log2_lt_pow2; [lia | cbn; lia]). lia.
Qed.

Lemma nibble_shiftr x k v :
  0 <= k -> 0 <= v < 16 ->
  (forall i, 0 <= i < 4 -> Z.testbit x (i + k) = Z.testbit v i) ->
  Z.land (Z.shiftr x k) 0xf = v.
Proof.
  intros Hk Hv H. apply nibble_from_bits; [exact Hv |].
  intros i Hi. rewrite Z.shiftr_spec by lia. now apply H.
Qed.

Lemma four_cases (P : Z -> Prop) :
  P 0 -> P 1 -> P 2 -> P 3 -> forall i, 0 <= i < 4 -> P i.
Proof.
  intros H0 H1 H2 H3 i Hi.
  assert (i = 0 \/ i = 1 \/ i = 2 \/ i = 3) as [-> | [-> | [-> | ->]]] by lia; assumption.
Qed.

Lemma uuid4_version rnd : Z.land (Z.shiftr (Uuid.uuid4 rnd) 76) 0xf = 4.
Proof.
  apply nibble_shiftr; [lia | lia |].
  apply four_cases; rewrite uuid4_testbit;
    match goal with |- context [Z.testbit rnd ?k] => destruct (Z.testbit rnd k) end;
    reflexivity.
Qed.

Lemma uuid4_variant rnd :
  let v := Z.land (Z.shiftr (Uuid.uuid4 rnd) 60) 0xf in
  v = 8 \/ v = 9 \/ v = 10 \/ v = 11.
Proof.
  cbv zeta.
  assert (forall b0 b1 : bool,
            Z.testbit (Uuid.uuid4 rnd) 60 = b0 -> Z.testbit (Uuid.uuid4 rnd) 61 = b1 ->
            Z.land (Z.shiftr (Uuid.uuid4 rnd) 60) 0xf
            = 8 + (if b1 then 2 else 0) + (if b0 then 1 else 0)) as H.
  { intros b0 b1 H0 H1. apply nibble_shiftr; [lia | destruct b0, b1; lia |].
    apply four_cases.
    - change (0 + 60) with 60. rewrite H0. destruct b0, b1; reflexivity.
    - change (1 + 60) with 61. rewrite H1. destruct b0, b1; reflexivity.
    - rewrite uuid4_testbit. destruct (Z.testbit rnd (2 + 60)), b0, b1; reflexivity.
    - rewrite uuid4_testbit. destruct (Z.testbit rnd (3 + 60)), b0, b1; reflexivity. }
  rewrite (H _ _ eq_refl eq_refl).
  destruct (Z.testbit (Uuid.uuid4 rnd) 60), (Z.testbit (Uuid.uuid4 rnd) 61); auto.
Qed.

End Text.

(** X12: the fingerprint is always 64 characters long and made of the digits
    0-9 and a-f only, whatever the document; it fits the 64-character
    [data_hash] column. *)
Theorem fingerprint_format d :
  String.length (generate_certificate_hash d) = 64%nat /\
  all_chars is_lower_hex (generate_certificate_hash d) = true.
Proof. unfold generate_certificate_hash. apply hexdigest_format. Qed.

(** X13: the identifier Issue generates is 36 characters long, with dashes
    after 8, 12, 16 and 20 digits, the version digit 4, and a variant digit
    among 8, 9, a, b, whatever the random bytes; it fits the 36-character
    [certificate_id] column. *)
Theorem uuid4_text_format rnd :
  let s := Uuid.str (Uuid.uuid4 rnd) in
  String.length s = 36%nat /\
  String.get 8 s = Some "-"%char /\ String.get 13 s = Some "-"%char /\
  String.get 18 s = Some "-"%char /\ String.get 23 s = Some "-"%char /\
  String.get 14 s = Some "4"%char /\
  (String.get 19 s = Some "8"%char \/ String.get 19 s = Some "9"%char \/
   String.get 19 s = Some "a"%char \/ String.get 19 s = Some "b"%char).
Proof.
  cbv zeta. generalize (uuid4_version rnd), (uuid4_variant rnd).
  generalize (Uuid.uuid4 rnd). intros u Hver Hvar. cbv zeta in Hvar.
  assert (String.get 14 (Uuid.str u)
          = Some (Sha256.hex_digit (Z.land (Z.shiftr u 76) 0xf))) as E14 by reflexivity.
  assert (String.get 19 (Uuid.str u)
          = Some (Sha256.hex_digit (Z.land (Z.shiftr u 60) 0xf))) as E19 by reflexivity.
  rewrite E14, E19, Hver.
  repeat (split; [reflexivity |]).
  destruct Hvar as [-> | [-> | [-> | ->]]]; auto.
Qed.

Section Normal.

Lemma lower_char_idem c : PyStr.lower_char (PyStr.lower_char c) = PyStr.lower_char c.
Proof. destruct c as [[] [] [] [] [] [] [] []]; vm_compute; reflexivity. Qed.

Lemma lower_char_pipe c : is_pipe (PyStr.lower_char c) = is_pipe c.
Proof. destruct c as [[] [] [] [] [] [] [] []]; vm_compute; reflexivity. Qed.

Lemma lower_idem s : PyStr.lower (PyStr.lower s) = PyStr.lower s.
Proof.
  induction s as [|c s IH]; [reflexivity |]. simpl. now rewrite lower_char_idem, IH.
Qed.

Lemma lstrip_lower s : PyStr.lstrip (PyStr.lower s) = PyStr.lower (PyStr.lstrip s).
Proof.
  induction s as [|c s IH]; [reflexivity |]. simpl.
  rewrite isspace_lower_char. destruct (PyStr.isspace c); [exact IH | reflexivity].
Qed.

Lemma rstrip_lower s : PyStr.rstrip (PyStr.lower s) = PyStr.lower (PyStr.rstrip s).
Proof.
  induction s as [|c s IH]; [reflexivity |]. simpl. rewrite IH, isspace_lower_char.
  destruct (PyStr.rstrip s); simpl; [destruct (PyStr.isspace c) |]; reflexivity.
Qed.

Lemma strip_lower s : PyStr.strip (PyStr.lower s) = PyStr.lower (PyStr.strip s).
Proof. unfold PyStr.strip. now rewrite lstrip_lower, rstrip_lower. Qed.

Lemma lstrip_idem s : PyStr.lstrip (PyStr.lstrip s) = PyStr.lstrip s.
Proof.
  induction s as [|c s IH]; [reflexivity |]. simpl.
  destruct (PyStr.isspace c) eqn:E; [exact IH |]. simpl. now rewrite E.
Qed.

Lemma rstrip_idem s : PyStr.rstrip (PyStr.rstrip s) = PyStr.rstrip s.
Proof.
  induction s as [|c s IH]; [reflexivity |]. simpl.
  destruct (PyStr.rstrip s) as [|x r] eqn:E.
  - destruct (PyStr.isspace c) eqn:Ec; [reflexivity |]. simpl. now rewrite Ec.
  - simpl in IH |- *. now rewrite IH.
Qed.

Lemma lstrip_rstrip s : PyStr.lstrip (PyStr.rstrip s) = PyStr.rstrip (PyStr.lstrip s).
Proof.
  induction s as [|c s IH]; [reflexivity |]. simpl.
  destruct (PyStr.isspace c) eqn:Ec.
  - rewrite <- IH. destruct (PyStr.rstrip s) as [|x r]; [reflexivity |]. simpl.
    now rewrite Ec.
  - simpl. destruct (PyStr.rstrip s) as [|x r]; simpl; now rewrite Ec.
Qed.

Lemma strip_idem s : PyStr.strip (PyStr.strip s) = PyStr.strip s.
Proof.
  unfold PyStr.strip. now rewrite lstrip_rstrip, lstrip_idem, rstrip_idem.
Qed.

(** The normal form of a normal form is itself. *)
Lemma normalize_idem s :
  PyStr.lower (PyStr.strip (PyStr.lower (PyStr.strip s))) = PyStr.lower (PyStr.strip s).
Proof. now rewrite strip_lower, strip_idem, lower_idem. Qed.

Lemma lstrip_decomposition s :
  exists l, all_space l = true /\ s = l +:+ PyStr.lstrip s.
Proof.
  induction s as [|c s (l & Hl & E)]; [exists ""; split; reflexivity |]. simpl.
  destruct (PyStr.isspace c) eqn:Ec.
  - exists (String c l). split; [simpl; now rewrite Ec, Hl |].
    rewrite append_cons. now rewrite <- E.
  - exists "". split; reflexivity.
Qed.

Lemma rstrip_decomposition s :
  exists r, all_space r = true /\ s = PyStr.rstrip s +:+ r.
Proof.
  induction s as [|c s (r & Hr & E)]; [exists ""; split; reflexivity |]. simpl.
  destruct (PyStr.rstrip s) as [|x q] eqn:Eq.
  - rewrite append_nil in E. subst r. destruct (PyStr.isspace c) eqn:Ec.
    + exists (String c s). split; [simpl; now rewrite Ec, Hr | reflexivity].
    + exists s. split; [exact Hr | reflexivity].
  - exists r. split; [exact Hr |]. rewrite append_cons. now rewrite <- E.
Qed.

Lemma no_pipe_lower s : no_pipe (PyStr.lower s) = no_pipe s.
Proof.
  unfold no_pipe. induction s as [|c s IH]; [reflexivity |]. simpl.
  now rewrite lower_char_pipe, IH.
Qed.

Lemma no_pipe_lstrip s : no_pipe s = true -> no_pipe (PyStr.lstrip s) = true.
Proof.
  unfold no_pipe. induction s as [|c s IH]; [reflexivity |]. simpl.
  intros [Hc Hs]%andb_true_iff.
  destruct (PyStr.isspace c); [auto |]. simpl. now rewrite Hc, Hs.
Qed.

Lemma no_pipe_rstrip s : no_pipe s = true -> no_pipe (PyStr.rstrip s) = true.
Proof.
  unfold no_pipe. induction s as [|c s IH]; [reflexivity |]. simpl.
  intros [Hc Hs]%andb_true_iff. specialize (IH Hs).
  destruct (PyStr.rstrip s) as [|x q].
  - destruct (PyStr.isspace c); [reflexivity |]. simpl. now rewrite Hc.
  - simpl in IH |- *. now rewrite Hc, IH.
Qed.

Lemma no_pipe_strip s : no_pipe s = true -> no_pipe (PyStr.strip s) = true.
Proof. intros H. unfold PyStr.strip. now apply no_pipe_rstrip, no_pipe_lstrip. Qed.

(** A pipe-free prefix is determined by the first pipe. *)
Lemma split_at_pipe (a b x y : string) :
  no_pipe a = true -> no_pipe b = true ->
  a +:+ "|" +:+ x = b +:+ "|" +:+ y -> a = b /\ x = y.
Proof.
  unfold no_pipe. revert b. induction a as [|c a IH]; intros [|e b] Ha Hb E.
  - rewrite !append_nil in E. injection E as E. now split.
  - rewrite append_nil, append_cons in E. injection E as <- _.
    simpl in Hb. discriminate.
  - rewrite append_nil, append_cons in E. injection E as -> _.
    simpl in Ha. discriminate.
  - rewrite !append_cons in E. injection E as -> E.
    simpl in Ha, Hb. apply andb_true_iff in Ha as [_ Ha]. apply andb_true_iff in Hb as [_ Hb].
    destruct (IH b Ha Hb E) as [-> ->]. now split.
Qed.

Lemma decode_encode_char c rest :
  decode_utf8 (PyStr.encode_char c ++ rest) = String c <$> decode_utf8 rest.
Proof. destruct c as [[] [] [] [] [] [] [] []]; reflexivity. Qed.

Lemma decode_encode s : decode_utf8 (PyStr.encode_utf8 s) = Some s.
Proof.
  induction s as [|c s IH]; [reflexivity |].
  cbn [PyStr.encode_utf8]. now rewrite decode_encode_char, IH.
Qed.

Lemma encode_utf8_inj s1 s2 : PyStr.encode_utf8 s1 = PyStr.encode_utf8 s2 -> s1 = s2.
Proof.
  intros E. apply (f_equal decode_utf8) in E. rewrite !decode_encode in E. now injection E.
Qed.

Lemma doc_get r c dt i :
  dict_get (doc r c dt i) "recipient" "" = r /\
  dict_get (doc r c dt i) "course" "" = c /\
  dict_get (doc r c dt i) "date" "" = dt /\
  dict_get (doc r c dt i) "issuer" "" = i.
Proof. repeat split; reflexivity. Qed.

Lemma pad_length msg :
  exists n : nat,
    length (Sha256.pad msg) = (64 * n)%nat /\
    (length msg + 9 <= 64 * n < length msg + 9 + 64)%nat.
Proof.
  unfold Sha256.pad. cbv zeta.
  rewrite !length_app, repeat_length. cbn [length].
  assert (length (Sha256.be_bytes 8 (8 * Z.of_nat (length msg))) = 8%nat) as -> by reflexivity.
  set (len := Z.of_nat (length msg)).
  pose proof (Z.mod_pos_bound (55 - len) 64 eq_refl) as Hm.
  pose proof (Z.div_mod (55 - len) 64 ltac:(lia)) as Hd.
  exists (Z.to_nat ((len + 9 + (55 - len) mod 64) / 64)).
  assert ((len + 9 + (55 - len) mod 64) = 64 * (1 - (55 - len) / 64)) as E by lia.
  rewrite E, Z.mul_comm, Z.div_mul by lia.
  subst len. lia.
Qed.

End Normal.

(** X14: normalising is idempotent. A document whose fields are replaced by
    their normal forms (stripped, and lower-cased except for the date) has
    the same canonical bytes and the same fingerprint as the original. *)
Theorem normal_form_is_fixed r c dt i :
  canonical_bytes (normal_doc r c dt i) = canonical_bytes (doc r c dt i) /\
  generate_certificate_hash (normal_doc r c dt i)
  = generate_certificate_hash (doc r c dt i).
Proof.
  assert (data_string (normal_doc r c dt i) = data_string (doc r c dt i)) as E.
  { unfold data_string, normal_doc.
    destruct (doc_get r c dt i) as (-> & -> & -> & ->).
    destruct (doc_get (PyStr.lower (PyStr.strip r)) (PyStr.lower (PyStr.strip c))
                (PyStr.strip dt) (PyStr.lower (PyStr.strip i))) as (-> & -> & -> & ->).
    now rewrite !normalize_idem, strip_idem. }
  unfold generate_certificate_hash, canonical_bytes. rewrite E. split; reflexivity.
Qed.

(** X15: without a pipe in recipient, course and date the canonical form is
    unambiguous: two documents with the four fields and equal canonical bytes
    have the same four normalised values. *)
Theorem canonical_form_injective_without_pipes d1 d2 :
  has_fields d1 = true -> has_fields d2 = true ->
  pipe_free d1 -> pipe_free d2 ->
  canonical_bytes d1 = canonical_bytes d2 ->
  Reference.normalized d1 required_fields = Reference.normalized d2 required_fields.
Proof.
  intros (r1 & c1 & t1 & i1 & Hr1 & Hc1 & Ht1 & Hi1)%has_fields_lookup
         (r2 & c2 & t2 & i2 & Hr2 & Hc2 & Ht2 & Hi2)%has_fields_lookup P1 P2 E.
  unfold pipe_free in P1, P2. rewrite !Forall_cons in P1, P2.
  destruct P1 as ((? & Er1 & Pr1) & (? & Ec1 & Pc1) & (? & Et1 & Pt1) & _).
  destruct P2 as ((? & Er2 & Pr2) & (? & Ec2 & Pc2) & (? & Et2 & Pt2) & _).
  simplify_eq.
  unfold canonical_bytes in E. apply encode_utf8_inj in E.
  unfold data_string, dict_get in E. rewrite Hr1, Hc1, Ht1, Hi1, Hr2, Hc2, Ht2, Hi2 in E.
  apply split_at_pipe in E as [Er E];
    [| now rewrite no_pipe_lower; apply no_pipe_strip ..].
  apply split_at_pipe in E as [Ec E];
    [| now rewrite no_pipe_lower; apply no_pipe_strip ..].
  apply split_at_pipe in E as [Et Ei]; [| now apply no_pipe_strip ..].
  unfold required_fields. cbn [Reference.normalized].
  rewrite Hr1, Hc1, Ht1, Hi1, Hr2, Hc2, Ht2, Hi2.
  unfold Reference.normalize_field. cbn [String.eqb Ascii.eqb Bool.eqb].
  now rewrite Er, Ec, Et, Ei.
Qed.

Lemma canonical_form_injective_without_pipes_witness :
  let d1 := doc "Bob Lee" "Systems Design" "2024-01-10" "Acme|HQ" in
  let d2 := doc " bob lee" "SYSTEMS DESIGN" "2024-01-10" "acme|hq " in
  canonical_bytes d1 = canonical_bytes d2 /\
  Reference.normalized d1 required_fields = Reference.normalized d2 required_fields.
Proof.
  cbv zeta. split; [vm_compute; reflexivity |].
  apply canonical_form_injective_without_pipes;
    try (vm_compute; reflexivity).
  - unfold pipe_free. repeat apply Forall_cons_2; try apply Forall_nil_2;
      (eexists; split; reflexivity).
  - unfold pipe_free. repeat apply Forall_cons_2; try apply Forall_nil_2;
      (eexists; split; reflexivity).
Defined.

(** X16: the UTF-8 encoding loses nothing: decoding the encoded string gives
    it back, so two strings with the same bytes are the same string, and two
    documents have the same canonical bytes exactly when they have the same
    canonical string. *)
Theorem utf8_round_trip s :
  decode_utf8 (PyStr.encode_utf8 s) = Some s /\
  (forall s', PyStr.encode_utf8 s = PyStr.encode_utf8 s' -> s = s') /\
  (forall d1 d2, canonical_bytes d1 = canonical_bytes d2 <-> data_string d1 = data_string d2).
Proof.
  split; [apply decode_encode |]. split; [intros s'; apply encode_utf8_inj |].
  intros d1 d2. unfold canonical_bytes. split; [apply encode_utf8_inj | now intros ->].
Qed.

Section Ends.

Lemma lstrip_starts s : starts_with_space (PyStr.lstrip s) = false.
Proof.
  induction s as [|c s IH]; [reflexivity |]. simpl.
  destruct (PyStr.isspace c) eqn:E; [exact IH | exact E].
Qed.

Lemma rstrip_starts s :
  starts_with_space s = false -> starts_with_space (PyStr.rstrip s) = false.
Proof.
  destruct s as [|c s]; [reflexivity |]. simpl. intros E.
  destruct (PyStr.rstrip s); [now rewrite E | exact E].
Qed.

Lemma rstrip_ends s : ends_with_space (PyStr.rstrip s) = false.
Proof.
  induction s as [|c s IH]; [reflexivity |]. simpl.
  destruct (PyStr.rstrip s) as [|y q].
  - destruct (PyStr.isspace c) eqn:E; [reflexivity | exact E].
  - exact IH.
Qed.

Lemma strip_decomposition s :
  exists l r, all_space l = true /\ all_space r = true /\ s = l +:+ PyStr.strip s +:+ r.
Proof.
  destruct (lstrip_decomposition s) as (l & Hl & El).
  destruct (rstrip_decomposition (PyStr.lstrip s)) as (r & Hr & Er).
  exists l, r. repeat split; try assumption.
  unfold PyStr.strip. now rewrite <- Er, <- El.
Qed.

Lemma words_length k (l : list Z) :
  length l = (4 * k)%nat -> length (Sha256.words l) = k.
Proof.
  revert l. induction k as [|k IH]; intros l H.
  - destruct l; [reflexivity | simpl in H; lia].
  - destruct l as [|b0 [|b1 [|b2 [|b3 l]]]]; simpl in H; try lia.
    cbn [Sha256.words length]. rewrite IH; [reflexivity | lia].
Qed.

Lemma split_in_blocks n (ws : list Z) :
  length ws = (16 * n)%nat ->
  exists bs : list (list Z),
    Forall (fun b => length b = 16%nat) bs /\ length bs = n /\ concat bs = ws.
Proof.
  revert ws. induction n as [|n IH]; intros ws H.
  - exists []. destruct ws; [repeat split; constructor | simpl in H; lia].
  - destruct (IH (drop 16 ws)) as (bs & Hb & Hl & Hc).
    { rewrite length_drop. lia. }
    exists (take 16 ws :: bs). split; [| split].
    + constructor; [| exact Hb]. rewrite length_take. lia.
    + cbn [length]. now rewrite Hl.
    + cbn [concat]. rewrite Hc. apply take_drop.
Qed.

Lemma blocks_of_concat (bs : list (list Z)) fuel h :
  Forall (fun b => length b = 16%nat) bs -> (length bs <= fuel)%nat ->
  Sha256.blocks fuel (concat bs) h = fold_left Sha256.compress bs h.
Proof.
  revert fuel h. induction bs as [|b bs IH]; intros fuel h Hb Hf.
  - destruct fuel; reflexivity.
  - apply Forall_cons in Hb as [Hlen Hb].
    destruct fuel as [|fuel]; [cbn [length] in Hf; lia |].
    cbn [concat fold_left].
    destruct b as [|x b]; [discriminate Hlen |].
    change ((x :: b) ++ concat bs) with (x :: (b ++ concat bs)).
    cbn [Sha256.blocks].
    change (x :: (b ++ concat bs)) with ((x :: b) ++ concat bs).
    change (List.firstn 16) with (@take Z 16). change (List.skipn 16) with (@drop Z 16).
    rewrite (take_app_length' (x :: b) (concat bs) 16 (eq_sym Hlen)).
    rewrite (drop_app_length' (x :: b) (concat bs) 16 (eq_sym Hlen)).
    apply IH; [exact Hb | cbn [length] in Hf; lia].
Qed.

End Ends.

(** X17: [strip] removes the white space at the two ends and nothing else: a
    string is its stripped form between two runs of white space, and the
    stripped form neither begins nor ends with a white-space character. *)
Theorem strip_removes_surrounding_space s :
  (exists l r,
     all_space l = true /\ all_space r = true /\ s = l +:+ PyStr.strip s +:+ r) /\
  starts_with_space (PyStr.strip s) = false /\
  ends_with_space (PyStr.strip s) = false.
Proof.
  split; [apply strip_decomposition |]. unfold PyStr.strip. split.
  - apply rstrip_starts, lstrip_starts.
  - apply rstrip_ends.
Qed.

(** X18: the hash reads the whole message, block by block. The padded
    message is the least whole number of 64-byte blocks that holds the
    message, the 0x80 byte and the 8 length bytes; its words fall into that
    many blocks of sixteen, and the digest is the compression function folded
    over all of them in order, from the initial value. *)
Theorem sha256_folds_over_blocks msg :
  exists bs : list (list Z),
    Forall (fun b => length b = 16%nat) bs /\
    (length msg + 9 <= 64 * length bs < length msg + 9 + 64)%nat /\
    length (Sha256.pad msg) = (64 * length bs)%nat /\
    concat bs = Sha256.words (Sha256.pad msg) /\
    Sha256.digest_words msg =
      (let h := fold_left Sha256.compress bs Sha256.H_init in
       [Sha256.ra h; Sha256.rb h; Sha256.rc h; Sha256.rd h;
        Sha256.re h; Sha256.rf h; Sha256.rg h; Sha256.rh h]).
Proof.
  destruct (pad_length msg) as (n & Hpad & Hn).
  assert (length (Sha256.words (Sha256.pad msg)) = (16 * n)%nat) as Hw.
  { apply words_length. lia. }
  destruct (split_in_blocks n _ Hw) as (bs & Hb & Hl & Hc).
  exists bs. subst n. repeat split; try assumption; try lia.
  assert (Sha256.blocks (length (Sha256.words (Sha256.pad msg)))
            (Sha256.words (Sha256.pad msg)) Sha256.H_init
          = fold_left Sha256.compress bs Sha256.H_init) as E.
  { rewrite <- Hc. apply blocks_of_concat; [exact Hb |]. rewrite Hc, Hw. lia. }
  unfold Sha256.digest_words. cbv zeta. rewrite E. reflexivity.
Qed.

Section Time.

Lemma digit_value_char d :
  0 <= d < 10 -> digit_value (ascii_of_N (Z.to_N (48 + d))) = d.
Proof.
  intros H. unfold digit_value. rewrite N_ascii_embedding by lia. lia.
Qed.

Lemma dec_value_fixed w acc n :
  0 <= n ->
  dec_value_from acc (dec_fixed w n) = acc * 10 ^ Z.of_nat w + n mod 10 ^ Z.of_nat w.
Proof.
  intros Hn. revert acc. induction w as [|w IH]; intros acc.
  - cbn [dec_fixed dec_value_from]. change (10 ^ Z.of_nat 0) with 1.
    rewrite Z.mod_1_r. lia.
  - cbn [dec_fixed dec_value_from]. rewrite IH.
    assert (0 < 10 ^ Z.of_nat w) as Hp by (apply Z.pow_pos_nonneg; lia).
    rewrite digit_value_char by (apply Z.mod_pos_bound; lia).
    rewrite Nat2Z.inj_succ, Z.pow_succ_r by lia.
    rewrite (Z.mul_comm 10 (10 ^ Z.of_nat w)), (Z.rem_mul_r n (10 ^ Z.of_nat w) 10) by lia.
    lia.
Qed.

Lemma dec_value_dec_fixed w n :
  0 <= n < 10 ^ Z.of_nat w -> dec_value (dec_fixed w n) = n.
Proof.
  intros H. unfold dec_value. rewrite dec_value_fixed by lia.
  rewrite Z.mod_small by lia. lia.
Qed.

Lemma parse_strftime t :
  parse_time (strftime t) =
    Datetime (dec_value (dec_fixed 4 (year t))) (dec_value (dec_fixed 2 (month t)))
             (dec_value (dec_fixed 2 (day t))) (dec_value (dec_fixed 2 (hour t)))
             (dec_value (dec_fixed 2 (minute t))) (dec_value (dec_fixed 2 (second t))) 0.
Proof. reflexivity. Qed.

End Time.

(** X19: the printed issuance time. For a clock reading with a four-digit
    year the text has 19 characters, reads back to the same year, month, day,
    hour, minute and second, and has dropped the microseconds: two readings
    in the same second print alike. *)
Theorem strftime_reads_back t :
  valid_time t ->
  String.length (strftime t) = 19%nat /\
  parse_time (strftime t)
  = Datetime (year t) (month t) (day t) (hour t) (minute t) (second t) 0 /\
  (forall us, strftime (Datetime (year t) (month t) (day t) (hour t) (minute t)
                         (second t) us) = strftime t).
Proof.
  intros (Hy & Hmo & Hd & Hh & Hmi & Hs & _).
  split; [reflexivity |]. split; [| reflexivity].
  rewrite parse_strftime.
  rewrite !dec_value_dec_fixed by (cbn; lia). reflexivity.
Qed.

Lemma strftime_reads_back_witness :
  let t := Datetime 2024 1 10 9 5 7 123456 in
  strftime t = "2024-01-10 09:05:07" /\
  parse_time (strftime t) = Datetime 2024 1 10 9 5 7 0.
Proof.
  split; [reflexivity |].
  apply (strftime_reads_back (Datetime 2024 1 10 9 5 7 123456)).
  unfold valid_time. cbn. lia.
Defined.

(** X20: the database calls of Verify. A request without identifier or
    document, or with a document that lacks a field, makes none; a complete
    request makes exactly one, the lookup of the identifier it names. *)
Theorem Verify_database_calls req t :
  (falsy_request req = true \/
   (exists d, req_certificate_data req = Some d /\ has_fields d = false) ->
   trace (snd (Verify req t)) = []) /\
  (forall cid d,
     req = verify_of cid d -> cid <> "" -> has_fields d = true ->
     trace (snd (Verify req t)) = [EvQuery cid]).
Proof.
  split.
  - intros H.
    destruct (request_cases req) as [E | [(d & E & Hd & Hf) | (cid & d & -> & Hcid & Hf)]].
    + now rewrite (Verify_missing req t E).
    + now rewrite (Verify_incomplete_msg req d t E Hd Hf).
    + destruct H as [H | (d' & [= <-] & Hd')].
      * rewrite (falsy_request_complete cid d Hcid Hf) in H. discriminate.
      * congruence.
  - intros cid d -> Hcid Hf. now rewrite (Verify_complete cid d t Hcid Hf).
Qed.

Section Tamper.

Lemma lower_eq_same_letters a b :
  PyStr.lower a = PyStr.lower b -> same_letters a b = true.
Proof.
  revert b. induction a as [|x a IH]; intros [|y b] E; try discriminate E; [reflexivity |].
  simpl in E. injection E as Exy E. simpl.
  rewrite Exy, (proj2 (Ascii.eqb_eq _ _) eq_refl). now apply IH.
Qed.

(** Values with one normal form differ only in surrounding white space or
    letter case. *)
Lemma normal_eq_differ v w :
  PyStr.lower (PyStr.strip v) = PyStr.lower (PyStr.strip w) ->
  differ_in_space_or_case v w.
Proof.
  intros E.
  destruct (strip_decomposition v) as (l1 & r1 & Hl1 & Hr1 & Ev).
  destruct (strip_decomposition w) as (l2 & r2 & Hl2 & Hr2 & Ew).
  exists l1, r1, l2, r2, (PyStr.strip v), (PyStr.strip w).
  repeat split; try assumption. now apply lower_eq_same_letters.
Qed.

(** Without pipes in recipient, course and date, equal canonical strings
    leave no field that differs beyond white space and letter case. *)
Lemma pipe_free_fields_related d1 d2 :
  has_fields d1 = true -> has_fields d2 = true ->
  pipe_free d1 -> pipe_free d2 ->
  data_string d1 = data_string d2 ->
  forall k v w, k ∈ required_fields -> d1 !! k = Some v -> d2 !! k = Some w ->
                differ_in_space_or_case v w.
Proof.
  intros (r1 & c1 & t1 & i1 & Hr1 & Hc1 & Ht1 & Hi1)%has_fields_lookup
         (r2 & c2 & t2 & i2 & Hr2 & Hc2 & Ht2 & Hi2)%has_fields_lookup P1 P2 E.
  unfold pipe_free in P1, P2. rewrite !Forall_cons in P1, P2.
  destruct P1 as ((? & Er1 & Pr1) & (? & Ec1 & Pc1) & (? & Et1 & Pt1) & _).
  destruct P2 as ((? & Er2 & Pr2) & (? & Ec2 & Pc2) & (? & Et2 & Pt2) & _).
  simplify_eq.
  unfold data_string, dict_get in E. rewrite Hr1, Hc1, Ht1, Hi1, Hr2, Hc2, Ht2, Hi2 in E.
  apply split_at_pipe in E as [Er E];
    [| now rewrite no_pipe_lower; apply no_pipe_strip ..].
  apply split_at_pipe in E as [Ec E];
    [| now rewrite no_pipe_lower; apply no_pipe_strip ..].
  apply split_at_pipe in E as [Et Ei]; [| now apply no_pipe_strip ..].
  intros k v w Hk Hv Hw. unfold required_fields in Hk.
  repeat (apply elem_of_cons in Hk as [-> | Hk];
          [simplify_eq; apply normal_eq_differ; congruence |]).
  inversion Hk.
Qed.

End Tamper.

(** C3 (amended): for an identifier produced by Issue(D) and a candidate D'
    holding the four fields that differs from D in at least one of the four
    fields by more than surrounding white space or letter case, where neither
    document has a pipe in recipient, course or date and SHA-256 does not
    collide on the two canonical forms, Verify answers authentic = false,
    directly or after any further requests; the reply carries the stored
    fingerprint (that of D) and the computed one (that of D'), which differ,
    and no issuance time. *)
Theorem C3_tamper_detection rnd now data t cid ops data' :
  issued_id (fst (Issue rnd now data t)) = Some cid ->
  has_fields data' = true ->
  (exists k v v',
     k ∈ required_fields /\ data !! k = Some v /\ data' !! k = Some v' /\
     ~ differ_in_space_or_case v v') ->
  pipe_free data -> pipe_free data' ->
  no_collision data' data ->
  let r := fst (Verify (verify_of cid data')
                  (run_ops (table (snd (Issue rnd now data t))) ops)) in
  status r = Some 200 /\
  field "authentic" r = Some (JBool false) /\
  field "recorded_hash" r = Some (JStr (generate_certificate_hash data)) /\
  field "verified_hash" r = Some (JStr (generate_certificate_hash data')) /\
  field "recorded_hash" r <> field "verified_hash" r /\
  field "issued_at" r = None.
Proof.
  intros H Hf' (k & v & v' & Hk & Hv & Hv' & Hdiff) P P' Hsha. cbv zeta.
  pose proof H as (Hf & _ & _)%issued_id_inv.
  assert (canonical_bytes data' <> canonical_bytes data) as Hbytes.
  { intros E. unfold canonical_bytes in E. apply encode_utf8_inj in E.
    apply Hdiff.
    exact (pipe_free_fields_related data data' Hf Hf' P P' (eq_sym E) k v v' Hk Hv Hv'). }
  rewrite (Verify_issued _ _ _ _ _ ops data' H Hf').
  exact (found_reply_mismatch (issued_row rnd now data t) (generate_certificate_hash data')
           (Hsha Hbytes)).
Qed.

Lemma C3_tamper_detection_witness :
  let data := doc "Bob Lee" "Systems Design" "2024-01-10" "Acme" in
  let data' := doc "Bob Lee" "Systems Design 2" "2024-01-10" "Acme" in
  let now := Datetime 2024 1 10 9 5 7 0 in
  let cid := "00000000-0000-4000-8000-000000000000" in
  let r := fst (Verify (verify_of cid data') (run_ops (table (snd (Issue 0 now data []))) [])) in
  issued_id (fst (Issue 0 now data [])) = Some cid /\
  ~ differ_in_space_or_case "Systems Design" "Systems Design 2" /\
  no_collision data' data /\
  field "authentic" r = Some (JBool false) /\
  field "recorded_hash" r <> field "verified_hash" r.
Proof.
  assert (~ differ_in_space_or_case "Systems Design" "Systems Design 2") as Hd.
  { intros E%normalize_differ_in_space_or_case. vm_compute in E. discriminate. }
  assert (no_collision (doc "Bob Lee" "Systems Design 2" "2024-01-10" "Acme")
            (doc "Bob Lee" "Systems Design" "2024-01-10" "Acme")) as Hsha.
  { intros _. vm_compute. discriminate. }
  split; [vm_compute; reflexivity |]. split; [exact Hd |]. split; [exact Hsha |].
  assert (pipe_free (doc "Bob Lee" "Systems Design" "2024-01-10" "Acme")) as P.
  { unfold pipe_free. repeat apply Forall_cons_2; try apply Forall_nil_2;
      (eexists; split; reflexivity). }
  assert (pipe_free (doc "Bob Lee" "Systems Design 2" "2024-01-10" "Acme")) as P'.
  { unfold pipe_free. repeat apply Forall_cons_2; try apply Forall_nil_2;
      (eexists; split; reflexivity). }
  assert (exists k v v',
            k ∈ required_fields /\
            doc "Bob Lee" "Systems Design" "2024-01-10" "Acme" !! k = Some v /\
            doc "Bob Lee" "Systems Design 2" "2024-01-10" "Acme" !! k = Some v' /\
            ~ differ_in_space_or_case v v') as Hex.
  { exists "course", "Systems Design", "Systems Design 2".
    split; [unfold required_fields; set_solver |].
    split; [reflexivity |]. split; [reflexivity | exact Hd]. }
  pose proof (C3_tamper_detection 0 (Datetime 2024 1 10 9 5 7 0)
                (doc "Bob Lee" "Systems Design" "2024-01-10" "Acme") []
                "00000000-0000-4000-8000-000000000000" []
                (doc "Bob Lee" "Systems Design 2" "2024-01-10" "Acme")
                ltac:(vm_compute; reflexivity) ltac:(vm_compute; reflexivity)
                Hex P P' Hsha) as (_ & Ha & _ & _ & Hne & _).
  split; [exact Ha | exact Hne].
Defined.
